(** * A chain calculator: the evaluation engine of [script.js]

    The engine is the four variables [currentInput], [accumulator],
    [pendingOp] and [lastPressedEquals] of [script.js] together with the
    functions that mutate them.  The embedding passes the four variables
    around as a record; the text written to [displayEl.textContent] is the
    second component of the result of [updateDisplay].

    Numbers are IEEE 754 binary64 values ([spec_float] at precision 53), and
    the host functions the script calls on them ([Number], [String],
    [toPrecision], [toExponential], [parseFloat], [Number.isFinite]) are
    written out after ECMA-262 in module [JS]. *)

From Stdlib Require Import ZArith Bool List String Ascii Lia PeanoNat.
From Stdlib Require Import Floats.SpecFloat.
Import ListNotations.

Local Open Scope string_scope.

(** ** Strings as the script uses them *)

Module Str.

(** [s.includes(c)] for a one-character needle. *)
Fixpoint includes (s : string) (c : ascii) : bool :=
  match s with
  | EmptyString => false
  | String a r => if Ascii.eqb a c then true else includes r c
  end.

(** [s.replace(c, '')]: only the first occurrence goes. *)
Fixpoint remove_first (s : string) (c : ascii) : string :=
  match s with
  | EmptyString => EmptyString
  | String a r => if Ascii.eqb a c then r else String a (remove_first r c)
  end.

(** [s.startsWith(c)]. *)
Definition startsWith (s : string) (c : ascii) : bool :=
  match s with
  | String a _ => Ascii.eqb a c
  | EmptyString => false
  end.

(** [s.slice(1)]. *)
Definition slice1 (s : string) : string :=
  match s with
  | String _ r => r
  | EmptyString => EmptyString
  end.

(** [s.slice(0, -1)]. *)
Fixpoint slice_init (s : string) : string :=
  match s with
  | EmptyString => EmptyString
  | String _ EmptyString => EmptyString
  | String a r => String a (slice_init r)
  end.

(** [c.repeat(n)]. *)
Fixpoint repeat (c : ascii) (n : nat) : string :=
  match n with
  | O => EmptyString
  | S k => String c (repeat c k)
  end.

Definition is_digit (c : ascii) : bool :=
  let n := nat_of_ascii c in (48 <=? n)%nat && (n <=? 57)%nat.

(** How many decimal digits a string holds, sign, point and exponent mark
    left out. *)
Fixpoint digitCount (s : string) : nat :=
  match s with
  | EmptyString => O
  | String a r => if is_digit a then S (digitCount r) else digitCount r
  end.

End Str.

(** ** The host's numbers *)

Module JS.

Local Open Scope Z_scope.

Definition number := spec_float.

Definition prec : Z := 53.
Definition emax : Z := 1024.

Definition NaN : number := S754_nan.
Definition zero : number := S754_zero false.

Definition add : number -> number -> number := SFadd prec emax.
Definition sub : number -> number -> number := SFsub prec emax.
Definition mul : number -> number -> number := SFmul prec emax.
Definition div : number -> number -> number := SFdiv prec emax.
Definition abs : number -> number := SFabs.
Definition ltb : number -> number -> bool := SFltb.

(** [Number.isFinite(x)]. *)
Definition isFinite (x : number) : bool :=
  match x with
  | S754_zero _ | S754_finite _ _ _ => true
  | S754_infinity _ | S754_nan => false
  end.

(** [x === 0], true of both zeros. *)
Definition isZero (x : number) : bool :=
  match x with
  | S754_zero _ => true
  | _ => false
  end.

(** Structural equality; on the canonical values the operations return it
    tells two numbers apart exactly when they differ as values or in the
    sign of zero. *)
Definition same (x y : number) : bool :=
  match x, y with
  | S754_zero a, S754_zero b => Bool.eqb a b
  | S754_infinity a, S754_infinity b => Bool.eqb a b
  | S754_nan, S754_nan => true
  | S754_finite a m e, S754_finite b n f =>
      Bool.eqb a b && Pos.eqb m n && Z.eqb e f
  | _, _ => false
  end.

(** The binary64 value nearest to [p / q] (ties to even), for [0<= p] and
    [0 < q]; a quotient is cut at the format's exponent with the position
    of the remainder, then rounded. *)
Definition of_ratio (neg : bool) (p q : Z) : number :=
  match p with
  | Z0 => S754_zero neg
  | _ =>
      let '(mz, ez, lz) := SFdiv_core_binary prec emax p 0 q 0 in
      binary_round_aux prec emax neg mz ez lz
  end.

(** The binary64 value nearest to [m * 10 ^ e]. *)
Definition of_decimal (neg : bool) (m e : Z) : number :=
  if 0 <=? e then of_ratio neg (m * 10 ^ e) 1
  else of_ratio neg m (10 ^ (- e)).

Definition of_Z (n : Z) : number :=
  of_decimal (n <? 0) (Z.abs n) 0.

(** *** Reading a number: [Number(s)] and [parseFloat(s)] *)

Definition digit_val (c : ascii) : Z := Z.of_nat (nat_of_ascii c) - 48.

(** A run of decimal digits: its value on top of [acc], its length on top
    of [n], and what follows it. *)
Fixpoint read_digits (s : string) (acc : Z) (n : Z) : Z * Z * string :=
  match s with
  | String c r =>
      if Str.is_digit c then read_digits r (10 * acc + digit_val c) (n + 1)
      else (acc, n, s)
  | EmptyString => (acc, n, s)
  end.

Definition read_sign (s : string) : bool * string :=
  match s with
  | String "-" r => (true, r)
  | String "+" r => (false, r)
  | _ => (false, s)
  end.

Fixpoint strip_prefix (p s : string) : option string :=
  match p, s with
  | EmptyString, _ => Some s
  | String a p', String b s' =>
      if Ascii.eqb a b then strip_prefix p' s' else None
  | String _ _, EmptyString => None
  end.

(** ExponentPart: [e] or [E], a sign, at least one digit.  Without a digit
    there is no exponent part and the text is left where it was. *)
Definition read_exponent (s : string) : Z * string :=
  match s with
  | String c r =>
      if Ascii.eqb c "e" || Ascii.eqb c "E" then
        let '(neg, r1) := read_sign r in
        let '(v, n, r2) := read_digits r1 0 0 in
        if n =? 0 then (0, s) else ((if neg then - v else v), r2)
      else (0, s)
  | EmptyString => (0, s)
  end.

(** The longest prefix that is a StrDecimalLiteral, with its value and the
    rest of the text; [None] when no prefix is one. *)
Definition read_decimal (s : string) : option (number * string) :=
  let '(neg, r0) := read_sign s in
  match strip_prefix "Infinity" r0 with
  | Some r => Some (S754_infinity neg, r)
  | None =>
      let '(ip, ni, r1) := read_digits r0 0 0 in
      let '(m, nf, r2) :=
        match r1 with
        | String "." r =>
            let '(m, nf, r') := read_digits r ip 0 in
            if (ni =? 0) && (nf =? 0) then (ip, 0, r1) else (m, nf, r')
        | _ => (ip, 0, r1)
        end in
      if (ni =? 0) && (nf =? 0) then None
      else
        let '(ex, r3) := read_exponent r2 in
        Some (of_decimal neg m (ex - nf), r3)
  end.

(** The white space of ASCII; the script builds no text with any other. *)
Definition is_space (c : ascii) : bool :=
  let n := nat_of_ascii c in
  (n =? 32)%nat || ((9 <=? n)%nat && (n <=? 13)%nat).

Fixpoint trim_start (s : string) : string :=
  match s with
  | String c r => if is_space c then trim_start r else s
  | EmptyString => s
  end.

(** Cuts trailing white space: a character stays when something other than
    white space follows or it is none itself. *)
Fixpoint trim_end (s : string) : string :=
  match s with
  | EmptyString => EmptyString
  | String c r =>
      match trim_end r with
      | EmptyString => if is_space c then EmptyString else String c EmptyString
      | r' => String c r'
      end
  end.

(** Digits of a literal in radix 2, 8 or 16; [None] at a character that is
    no digit of the radix. *)
Definition radix_digit (radix : Z) (c : ascii) : option Z :=
  let n := Z.of_nat (nat_of_ascii c) in
  let v :=
    if (48 <=? n) && (n <=? 57) then n - 48
    else if (97 <=? n) && (n <=? 102) then n - 87
    else if (65 <=? n) && (n <=? 70) then n - 55
    else radix in
  if v <? radix then Some v else None.

Fixpoint read_radix (radix : Z) (s : string) (acc : Z) : option Z :=
  match s with
  | EmptyString => Some acc
  | String c r =>
      match radix_digit radix c with
      | Some v => read_radix radix r (radix * acc + v)
      | None => None
      end
  end.

Definition read_non_decimal (s : string) : option number :=
  match s with
  | String "0" (String c (String d r)) =>
      let radix :=
        if Ascii.eqb c "x" || Ascii.eqb c "X" then 16
        else if Ascii.eqb c "o" || Ascii.eqb c "O" then 8
        else if Ascii.eqb c "b" || Ascii.eqb c "B" then 2
        else 0 in
      if radix =? 0 then None
      else option_map of_Z (read_radix radix (String d r) 0)
  | _ => None
  end.

(** [Number(s)] on a string: white space trimmed, the empty text is [0], a
    literal has to cover the whole text, anything else is [NaN]. *)
Definition Number (s : string) : number :=
  let t := trim_end (trim_start s) in
  match t with
  | EmptyString => zero
  | _ =>
      match read_non_decimal t with
      | Some x => x
      | None =>
          match read_decimal t with
          | Some (x, EmptyString) => x
          | _ => NaN
          end
      end
  end.

(** [parseFloat(s)]: the longest decimal prefix, [NaN] without one. *)
Definition parseFloat (s : string) : number :=
  match read_decimal (trim_start s) with
  | Some (x, _) => x
  | None => NaN
  end.

(** *** Writing a number: [String(x)], [x.toPrecision(p)], [x.toExponential(f)] *)

Fixpoint digits_loop (fuel : nat) (n : Z) (acc : string) : string :=
  match fuel with
  | O => acc
  | S f =>
      let acc' := String (ascii_of_nat (48 + Z.to_nat (n mod 10))) acc in
      if n <? 10 then acc' else digits_loop f (n / 10) acc'
  end.

(** The decimal digits of a natural number. *)
Definition digits_of (n : Z) : string :=
  digits_loop (S (Z.to_nat (Z.log2 n))) n EmptyString.

Definition ndigits (n : Z) : Z := Z.of_nat (String.length (digits_of n)).

(** A positive finite number as an exact fraction. *)
Definition ratio_of (m : positive) (e : Z) : Z * Z :=
  if 0 <=? e then (Zpos m * 2 ^ e, 1) else (Zpos m, 2 ^ (- e)).

(** The decimal exponent [t] of a positive fraction:
    [10 ^ t <= p / q < 10 ^ (t + 1)]. *)
Definition exponent10 (p q : Z) : Z :=
  if q <=? p then ndigits (p / q) - 1
  else
    let d := ndigits (q / p) in
    if p * 10 ^ (d - 1) =? q then 1 - d else - d.

(** [p / q] over [10 ^ k], again as a fraction. *)
Definition scale10 (p q k : Z) : Z * Z :=
  if 0 <=? k then (p, q * 10 ^ k) else (p * 10 ^ (- k), q).

(** The integer [n] of [pr] digits and the exponent [e] with
    [n * 10 ^ (e - pr + 1)] nearest to [p / q], the larger [n] on a tie. *)
Definition round_digits (p q pr : Z) : Z * Z :=
  let e := exponent10 p q in
  let '(a, b) := scale10 p q (e - pr + 1) in
  let n := (2 * a + b) / (2 * b) in
  if n =? 10 ^ pr then (10 ^ (pr - 1), e + 1) else (n, e).

(** With [k] digits: the integer [s] nearest to [p / q] among those for
    which [s * 10 ^ (e - k + 1)] reads back as [x]; a tie goes to the even
    one. *)
Definition shortest_at (x : number) (p q k : Z) : option (Z * Z) :=
  let e := exponent10 p q in
  let '(a, b) := scale10 p q (e - k + 1) in
  let lo := a / b in
  let r := a - lo * b in
  let hi := lo + 1 in
  let ok c := same (of_decimal false c (e - k + 1)) x in
  let pick c := if c =? 10 ^ k then (10 ^ (k - 1), e + 1) else (c, e) in
  match ok lo, ok hi with
  | true, true =>
      if 2 * r <? b then Some (pick lo)
      else if b <? 2 * r then Some (pick hi)
      else Some (pick (if Z.even lo then lo else hi))
  | true, false => Some (pick lo)
  | false, true => Some (pick hi)
  | false, false => None
  end.

(** The least digit count [k] that identifies [x], tried from [k] upwards;
    seventeen digits always do. *)
Fixpoint shortest_from (fuel : nat) (x : number) (p q k : Z) : Z * Z * Z :=
  match fuel with
  | O => let '(s, e) := round_digits p q 17 in (s, 17, e)
  | S f =>
      match shortest_at x p q k with
      | Some (s, e) => (s, k, e)
      | None => shortest_from f x p q (k + 1)
      end
  end.

Definition zeros (n : Z) : string := Str.repeat "0" (Z.to_nat n).

Definition exponent_text (e : Z) : string :=
  ("e" ++ (if (e <? 0)%Z then "-" else "+") ++ digits_of (Z.abs e))%string.

(** A digit string with a point after its first character, when more than
    one character is there. *)
Definition point_after_first (m : string) : string :=
  match m with
  | String a EmptyString => m
  | String a r => String a (String "." r)
  | EmptyString => m
  end.

(** Number::toString at radix 10 for a positive finite number: [s] has [k]
    digits and the number is [s * 10 ^ (n - k)]. *)
Definition positive_text (x : number) (m : positive) (e : Z) : string :=
  let '(p, q) := ratio_of m e in
  let '(s, k, e10) := shortest_from 17 x p q 1 in
  let n := e10 + 1 in
  let ds := digits_of s in
  if (-5 <=? n) && (n <=? 21) then
    if k <=? n then (ds ++ zeros (n - k))%string
    else if 0 <? n then
      (substring 0 (Z.to_nat n) ds ++ "." ++
       substring (Z.to_nat n) (Z.to_nat (k - n)) ds)%string
    else ("0." ++ zeros (- n) ++ ds)%string
  else (point_after_first ds ++ exponent_text (n - 1))%string.

(** [String(x)] for a number [x]. *)
Definition ToString (x : number) : string :=
  match x with
  | S754_nan => "NaN"
  | S754_zero _ => "0"
  | S754_infinity neg => if neg then "-Infinity" else "Infinity"
  | S754_finite neg m e =>
      ((if neg then "-" else "") ++
       positive_text (S754_finite false m e) m e)%string
  end.

(** The digits and exponent [toPrecision] and [toExponential] start from;
    zero is all zeros at exponent [0]. *)
Definition precision_digits (x : number) (pr : Z) : string * Z :=
  match x with
  | S754_finite _ m e =>
      let '(p, q) := ratio_of m e in
      let '(n, e10) := round_digits p q pr in
      (digits_of n, e10)
  | _ => (zeros pr, 0)
  end.

Definition sign_text (x : number) : string :=
  match x with
  | S754_finite true _ _ => "-"
  | _ => ""
  end.

(** [x.toPrecision(pr)] for [1 <= pr <= 100]. *)
Definition toPrecision (x : number) (pr : Z) : string :=
  if negb (isFinite x) then ToString x
  else
    let '(m, e) := precision_digits x pr in
    if (e <? -6) || (pr <=? e) then
      (sign_text x ++ point_after_first m ++ exponent_text e)%string
    else if e =? pr - 1 then (sign_text x ++ m)%string
    else if 0 <=? e then
      (sign_text x ++ substring 0 (Z.to_nat (e + 1)) m ++ "." ++
       substring (Z.to_nat (e + 1)) (Z.to_nat (pr - (e + 1))) m)%string
    else (sign_text x ++ "0." ++ zeros (- (e + 1)) ++ m)%string.

(** [x.toExponential(f)] for [0 <= f <= 100]. *)
Definition toExponential (x : number) (f : Z) : string :=
  if negb (isFinite x) then ToString x
  else
    let '(m, e) := precision_digits x (f + 1) in
    (sign_text x ++ point_after_first m ++ exponent_text e)%string.

End JS.

(** ** The engine *)

(** [accumulator] holds a number or [null]; [pendingOp] holds the operator
    text [+], [-], [*] or [/], or [null]. *)
Record State : Type := mkState {
  currentInput : string;
  accumulator : option JS.number;
  pendingOp : option string;
  lastPressedEquals : bool
}.

Definition MAX_DIGITS : nat := 15.

(** The values the four variables are declared with. *)
Definition initial : State := mkState "0" None None false.

Definition setInput (s : State) (text : string) : State :=
  mkState text (accumulator s) (pendingOp s) (lastPressedEquals s).

(** The engine's error state, entered with [accumulator] and [pendingOp]
    set to [null]. *)
Definition toError (s : State) : State :=
  mkState "ERROR" None None (lastPressedEquals s).

(** [updateDisplay()]: the state it leaves and the text it shows. *)
Definition updateDisplay (s : State) : State * string :=
  if currentInput s =? "ERROR" then (s, "Error")
  else
    let text := currentInput s in
    if (MAX_DIGITS <? String.length text)%nat then
      let n := JS.Number text in
      if negb (JS.isFinite n) then (setInput s "ERROR", "Error")
      else (s, JS.ToString (JS.parseFloat (JS.toPrecision n 15)))
    else (s, text).

(** [inputDigit(d)], [d] a digit or the point. *)
Definition inputDigit (d : string) (s : State) : State :=
  if currentInput s =? "ERROR" then s
  else
    let s := if lastPressedEquals s then mkState "0" None None false else s in
    if d =? "." then
      if Str.includes (currentInput s) "." then s
      else setInput s (currentInput s ++ ".")
    else if currentInput s =? "0" then setInput s d
    else if (MAX_DIGITS <=?
             String.length (Str.remove_first (currentInput s) "."))%nat
    then s
    else setInput s (currentInput s ++ d).

Definition clearAll (_ : State) : State := mkState "0" None None false.

Definition toggleNegate (s : State) : State :=
  if currentInput s =? "ERROR" then s
  else if currentInput s =? "0" then s
  else if Str.startsWith (currentInput s) "-"
  then setInput s (Str.slice1 (currentInput s))
  else setInput s ("-" ++ currentInput s).

Definition hundred : JS.number := JS.of_Z 100.

Definition percent (s : State) : State :=
  if currentInput s =? "ERROR" then s
  else
    let n := JS.Number (currentInput s) in
    if negb (JS.isFinite n) then setInput s "ERROR"
    else setInput s (JS.ToString (JS.div n hundred)).

(** [compute(a, b, op)]; [None] is the [null] it returns on a division by
    zero. *)
Definition compute (a b : JS.number) (op : string) : option JS.number :=
  if negb (JS.isFinite a) || negb (JS.isFinite b) then Some JS.NaN
  else if op =? "+" then Some (JS.add a b)
  else if op =? "-" then Some (JS.sub a b)
  else if op =? "*" then Some (JS.mul a b)
  else if op =? "/" then
    if JS.isZero b then None else Some (JS.div a b)
  else Some b.

(** The four operator symbols the buttons and keys send, and the operator
    text [opMap] gives each. *)
Inductive OpSymbol : Type := Plus | Minus | Times | Divide.

Definition opMap (sym : OpSymbol) : string :=
  match sym with
  | Times => "*"
  | Divide => "/"
  | Plus => "+"
  | Minus => "-"
  end.

(** A [pendingOp] counts as true in a condition when it is a text other
    than the empty one. *)
Definition truthy (o : option string) : bool :=
  match o with
  | Some t => negb (t =? "")
  | None => false
  end.

(** [pendingOp || op]. *)
Definition orElse (o : option string) (op : string) : string :=
  match o with
  | Some t => if t =? "" then op else t
  | None => op
  end.

Definition pressOperator (sym : OpSymbol) (s : State) : State :=
  if currentInput s =? "ERROR" then s
  else
    let op := opMap sym in
    let inputVal := JS.Number (currentInput s) in
    match accumulator s with
    | None => mkState "0" (Some inputVal) (Some op) false
    | Some acc =>
        if negb (lastPressedEquals s) || truthy (pendingOp s) then
          match compute acc inputVal (orElse (pendingOp s) op) with
          | None => fst (updateDisplay (toError s))
          | Some result => mkState "0" (Some result) (Some op) false
          end
        else mkState "0" (Some acc) (Some op) false
    end.

Definition ten_to_12 : JS.number := JS.of_decimal false 1 12.
Definition ten_to_minus_12 : JS.number := JS.of_decimal false 1 (-12).

Definition roundForDisplay (n : JS.number) : JS.number :=
  if negb (JS.isFinite n) then n
  else
    let abs := JS.abs n in
    if JS.ltb ten_to_12 abs ||
       (negb (JS.isZero abs) && JS.ltb abs ten_to_minus_12)
    then JS.Number (JS.toExponential n 12)
    else JS.Number (JS.toPrecision n 12).

Definition pressEquals (s : State) : State :=
  if currentInput s =? "ERROR" then s
  else
    match pendingOp s with
    | None => mkState (currentInput s) (accumulator s) None true
    | Some op =>
        let inputVal := JS.Number (currentInput s) in
        let a := match accumulator s with None => JS.zero | Some a => a end in
        match compute a inputVal op with
        | None => fst (updateDisplay (toError s))
        | Some result =>
            if negb (JS.isFinite result) then fst (updateDisplay (toError s))
            else mkState (JS.ToString (roundForDisplay result)) None None true
        end
    end.

(** The [Backspace] branch of the key handler. *)
Definition backspace (s : State) : State :=
  if lastPressedEquals s then clearAll s
  else if (String.length (currentInput s) <=? 1)%nat then setInput s "0"
  else setInput s (Str.slice_init (currentInput s)).

(** ** Commands *)

Inductive DigitKey : Type := K0 | K1 | K2 | K3 | K4 | K5 | K6 | K7 | K8 | K9.

Definition keyText (k : DigitKey) : string :=
  match k with
  | K0 => "0" | K1 => "1" | K2 => "2" | K3 => "3" | K4 => "4"
  | K5 => "5" | K6 => "6" | K7 => "7" | K8 => "8" | K9 => "9"
  end.

Inductive Command : Type :=
  | CDigit (k : DigitKey)
  | CDecimalPoint
  | COperator (sym : OpSymbol)
  | CEquals
  | CClear
  | CNegate
  | CPercent
  | CBackspace.

(** What a command does to the variables before the display is redrawn. *)
Definition apply (c : Command) (s : State) : State :=
  match c with
  | CDigit k => inputDigit (keyText k) s
  | CDecimalPoint => inputDigit "." s
  | COperator sym => pressOperator sym s
  | CEquals => pressEquals s
  | CClear => clearAll s
  | CNegate => toggleNegate s
  | CPercent => percent s
  | CBackspace => backspace s
  end.

(** A button press or key stroke: the command, then [updateDisplay()]. *)
Definition handle (c : Command) (s : State) : State * string :=
  updateDisplay (apply c s).

Definition exec (c : Command) (s : State) : State := fst (handle c s).

Definition run (cs : list Command) (s : State) : State :=
  fold_left (fun st c => exec c st) cs s.

(** The text on the display after the commands, starting from a display
    drawn once as the script does on load. *)
Definition shown (cs : list Command) (s : State) : string :=
  snd (updateDisplay (run cs s)).

(** The states the engine passes through from [initial]. *)
Inductive reachable : State -> Prop :=
  | reach_initial : reachable (fst (updateDisplay initial))
  | reach_step c s : reachable s -> reachable (exec c s).

(** ** Typed digits *)

(** The text a list of digit keys spells. *)
Fixpoint keysText (ks : list DigitKey) : string :=
  match ks with
  | [] => ""
  | k :: r => keyText k ++ keysText r
  end.

Definition isK0 (k : DigitKey) : bool :=
  match k with K0 => true | _ => false end.

Fixpoint dropZeros (ks : list DigitKey) : list DigitKey :=
  match ks with
  | k :: r => if isK0 k then dropZeros r else ks
  | [] => []
  end.

(** What a run of digit keys amounts to on an entry that stands at [0]:
    leading zeros vanish and at most [MAX_DIGITS] digits are taken. *)
Definition typed (ks : list DigitKey) : string :=
  match dropZeros ks with
  | [] => "0"
  | ds => keysText (firstn MAX_DIGITS ds)
  end.

(** How many decimal points a text holds. *)
Fixpoint points (s : string) : nat :=
  match s with
  | EmptyString => O
  | String a r => if Ascii.eqb a "." then S (points r) else points r
  end.

(** ** Chains *)

(** The keys of a chain: each operator key with the digit keys of the
    operand that follows it. *)
Definition chainKeys (steps : list (OpSymbol * list DigitKey))
  : list Command :=
  flat_map (fun step => COperator (fst step) :: map CDigit (snd step)) steps.

(** Folding a chain from the left: [a] is what has been computed so far,
    [sym] the operator waiting and [ks] the operand typed after it.  Each
    further operator first applies the waiting one; [None] when [compute]
    gives [null] on the way.  The result is the accumulator, the operator
    and the operand that the equals key will find. *)
Fixpoint chainFold (a : JS.number) (sym : OpSymbol) (ks : list DigitKey)
    (rest : list (OpSymbol * list DigitKey))
  : option (JS.number * OpSymbol * list DigitKey) :=
  match rest with
  | [] => Some (a, sym, ks)
  | (sym', ks') :: rest' =>
      match compute a (JS.Number (typed ks)) (opMap sym) with
      | Some a' => chainFold a' sym' ks' rest'
      | None => None
      end
  end.

(** ** Theme and background *)

(** A select element: the values of its options, which the page's markup
    fixes, and its current value. *)
Record Select : Type := mkSelect {
  options : list string;
  value : string
}.

(** The part of the page the script reads and writes besides the display:
    [localStorage], the [data-theme] attribute of the document element,
    whether [transparent-buttons] is in the class list of the body, the
    five background properties of the body's style, and the two select
    elements, [None] when the page has none ([getElementById] gave
    [null]). *)
Record Page : Type := mkPage {
  localStorage : string -> option string;
  dataTheme : option string;
  transparentButtons : bool;
  backgroundImage : string;
  backgroundSize : string;
  backgroundPosition : string;
  backgroundRepeat : string;
  backgroundAttachment : string;
  themeSelect : option Select;
  bgSelect : option Select
}.

Definition THEME_KEY : string := "calculator_theme".
Definition BG_KEY : string := "calculator_background".
Definition defaultBg : string := "background/1.jpg".

(** [localStorage.setItem(key, value)]. *)
Definition setItem (st : string -> option string) (key v : string)
  : string -> option string :=
  fun k => if k =? key then Some v else st k.

(** [x || fallback] for a text or [null]: [null] and the empty text give
    the fallback. *)
Definition orText (x : option string) (fallback : string) : string :=
  match x with
  | Some t => if t =? "" then fallback else t
  | None => fallback
  end.

(** [sel.value = v] behind [if (sel)]: the select takes the value when one
    of its options has it, and is left without a selection, its value the
    empty text, when none has. *)
Definition assign (sel : option Select) (v : string) : option Select :=
  match sel with
  | Some x =>
      Some (mkSelect (options x)
              (if existsb (String.eqb v) (options x) then v else ""))
  | None => None
  end.

(** An assignment to [style.backgroundImage]: the host keeps the old value
    when the text is no valid value of the property.  [accepts] is the
    host's verdict on a text; the empty text always clears the property.
    The field holds the text last taken, as it was assigned. *)
Definition styleImage (accepts : string -> bool) (old text : string)
  : string :=
  if text =? "" then ""
  else if accepts text then text else old.

(** A host that takes [url('name')] for the names made of letters, digits,
    [.], [/], [_] and [-], and nothing else: every browser takes these. *)
Definition plainChar (c : ascii) : bool :=
  let n := nat_of_ascii c in
  ((48 <=? n)%nat && (n <=? 57)%nat) ||
  ((65 <=? n)%nat && (n <=? 90)%nat) ||
  ((97 <=? n)%nat && (n <=? 122)%nat) ||
  (n =? 45)%nat || (n =? 46)%nat || (n =? 47)%nat || (n =? 95)%nat.

Fixpoint plainThenClose (s : string) : bool :=
  match s with
  | String "'" (String ")" EmptyString) => true
  | String c r => plainChar c && plainThenClose r
  | EmptyString => false
  end.

Definition acceptsPlain (text : string) : bool :=
  match JS.strip_prefix "url('" text with
  | Some r => plainThenClose r
  | None => false
  end.

Definition setTheme (name : string) (p : Page) : Page :=
  mkPage (setItem (localStorage p) THEME_KEY name)
    (Some name)
    (if name =? "glass" then true else false)
    (backgroundImage p) (backgroundSize p) (backgroundPosition p)
    (backgroundRepeat p) (backgroundAttachment p)
    (themeSelect p) (bgSelect p).

Definition applySavedSettings (p : Page) : Page :=
  let savedTheme := orText (localStorage p THEME_KEY) "dark" in
  let q := setTheme savedTheme p in
  mkPage (localStorage q) (dataTheme q) (transparentButtons q)
    (backgroundImage q) (backgroundSize q) (backgroundPosition q)
    (backgroundRepeat q) (backgroundAttachment q)
    (assign (themeSelect q) savedTheme) (bgSelect q).

Definition setBackground (accepts : string -> bool) (img : string) (p : Page)
  : Page :=
  if (img =? "") || (img =? "none") then
    mkPage (setItem (localStorage p) BG_KEY img)
      (dataTheme p) (transparentButtons p)
      (styleImage accepts (backgroundImage p) "")
      (backgroundSize p) (backgroundPosition p)
      (backgroundRepeat p) (backgroundAttachment p)
      (themeSelect p) (bgSelect p)
  else
    mkPage (setItem (localStorage p) BG_KEY img)
      (dataTheme p) (transparentButtons p)
      (styleImage accepts (backgroundImage p) ("url('" ++ img ++ "')"))
      "cover" "center center" "no-repeat" "fixed"
      (themeSelect p) (bgSelect p).

(** A page with another [localStorage]; with the storage of one page put
    on another, a document opened anew on what an earlier visit stored. *)
Definition setStorage (p : Page) (st : string -> option string) : Page :=
  mkPage st (dataTheme p) (transparentButtons p)
    (backgroundImage p) (backgroundSize p) (backgroundPosition p)
    (backgroundRepeat p) (backgroundAttachment p)
    (themeSelect p) (bgSelect p).

Definition loadBackground (accepts : string -> bool) (p : Page) : Page :=
  let '(savedBG, p1) :=
    match localStorage p BG_KEY with
    | Some t =>
        if t =? "" then
          (defaultBg, setStorage p (setItem (localStorage p) BG_KEY defaultBg))
        else (t, p)
    | None =>
        (defaultBg, setStorage p (setItem (localStorage p) BG_KEY defaultBg))
    end in
  let q := setBackground accepts savedBG p1 in
  mkPage (localStorage q) (dataTheme q) (transparentButtons q)
    (backgroundImage q) (backgroundSize q) (backgroundPosition q)
    (backgroundRepeat q) (backgroundAttachment q)
    (themeSelect q) (assign (bgSelect q) savedBG).

(** The [change] handlers of the two select elements; the one of the theme
    redraws the display. *)
Definition onThemeChange (v : string) (ps : Page * State) : Page * State :=
  (setTheme v (fst ps), fst (updateDisplay (snd ps))).

Definition onBackgroundChange (accepts : string -> bool) (v : string)
    (p : Page) : Page :=
  setBackground accepts v p.

(** What can happen to the page once the script runs. *)
Inductive PageOp : Type :=
  | OpSetTheme (name : string)
  | OpApplySaved
  | OpSetBackground (img : string)
  | OpLoadBackground.

Definition pageStep (accepts : string -> bool) (o : PageOp) (p : Page)
  : Page :=
  match o with
  | OpSetTheme name => setTheme name p
  | OpApplySaved => applySavedSettings p
  | OpSetBackground img => setBackground accepts img p
  | OpLoadBackground => loadBackground accepts p
  end.

(** The page as the script leaves it on load, and after further steps. *)
Definition pageLoaded (accepts : string -> bool) (p : Page) : Page :=
  loadBackground accepts (applySavedSettings p).

Definition pageRun (accepts : string -> bool) (os : list PageOp) (p : Page)
  : Page :=
  fold_left (fun q o => pageStep accepts o q) os p.

(** The stored theme, the attribute and the glass class agree. *)
Definition themed (p : Page) : Prop :=
  exists name,
    dataTheme p = Some name /\
    localStorage p THEME_KEY = Some name /\
    transparentButtons p = (name =? "glass").

(** The style image a stored background stands for. *)
Definition imageOf (img : string) : string :=
  if (img =? "") || (img =? "none") then "" else "url('" ++ img ++ "')".

(** After an equals, nothing is pending. *)
Definition settled (s : State) : Prop :=
  lastPressedEquals s = true -> accumulator s = None /\ pendingOp s = None.

(** ** The earlier revision of the theme code

    The second copy of the script in the file keeps the glass mode apart
    from the theme: a button toggles it and a key of its own stores it. *)

Module Earlier.

(** The glass button: its [aria-pressed] attribute, [None] while unset, and
    its text. *)
Record Button : Type := mkButton {
  ariaPressed : option string;
  textContent : string
}.

Record Page : Type := mkPage {
  localStorage : string -> option string;
  dataTheme : option string;
  transparentButtons : bool;
  backgroundImage : string;
  themeSelect : option Select;
  glassToggleBtn : option Button;
  bgSelect : option Select
}.

(** A page with another [localStorage]. *)
Definition setStorage (p : Page) (st : string -> option string) : Page :=
  mkPage st (dataTheme p) (transparentButtons p) (backgroundImage p)
    (themeSelect p) (glassToggleBtn p) (bgSelect p).

Definition GLASS_KEY : string := "calculator_glass_mode".
Definition defaultBg : string := "bg1.jpg".

(** [String(b)] for a boolean. *)
Definition boolText (b : bool) : string := if b then "true" else "false".

(** The two statements behind [if (glassToggleBtn)]. *)
Definition showGlass (btn : option Button) (on : bool) : option Button :=
  match btn with
  | Some _ =>
      Some (mkButton (Some (boolText on))
              (if on then "Glass: ON" else "Toggle Glass"))
  | None => None
  end.

Definition setTheme (name : string) (p : Page) : Page :=
  mkPage (setItem (localStorage p) THEME_KEY name) (Some name)
    (transparentButtons p) (backgroundImage p)
    (themeSelect p) (glassToggleBtn p) (bgSelect p).

Definition applySavedSettings (p : Page) : Page :=
  let savedTheme := orText (localStorage p THEME_KEY) "dark" in
  let q := setTheme savedTheme p in
  let glassOn :=
    match localStorage q GLASS_KEY with
    | Some t => t =? "true"
    | None => false
    end in
  mkPage (localStorage q) (dataTheme q)
    (if glassOn then true else false) (backgroundImage q)
    (assign (themeSelect q) savedTheme)
    (showGlass (glassToggleBtn q) glassOn) (bgSelect q).

(** [toggleTransparentButtons(enable)], [enable] a boolean or left out;
    the page it leaves and the value it returns. *)
Definition toggleTransparentButtons (enable : option bool) (p : Page)
  : Page * bool :=
  let newState :=
    match enable with
    | None => negb (transparentButtons p)
    | Some e => e
    end in
  (mkPage (setItem (localStorage p) GLASS_KEY (boolText newState))
     (dataTheme p) newState (backgroundImage p)
     (themeSelect p) (showGlass (glassToggleBtn p) newState) (bgSelect p),
   newState).

(** The [change] handler of the theme select and the [click] handler of
    the glass button. *)
Definition onThemeChange (value : string) (p : Page) : Page :=
  let q := setTheme value p in
  if value =? "glass" then fst (toggleTransparentButtons (Some true) q)
  else q.

Definition onGlassClick (p : Page) : Page :=
  fst (toggleTransparentButtons None p).

Definition setBackground (accepts : string -> bool) (img : string) (p : Page)
  : Page :=
  mkPage (setItem (localStorage p) BG_KEY img) (dataTheme p)
    (transparentButtons p)
    (styleImage accepts (backgroundImage p) ("url('" ++ img ++ "')"))
    (themeSelect p) (glassToggleBtn p) (bgSelect p).

Definition loadBackground (accepts : string -> bool) (p : Page) : Page :=
  let savedBG := orText (localStorage p BG_KEY) defaultBg in
  let q := setBackground accepts savedBG p in
  mkPage (localStorage q) (dataTheme q) (transparentButtons q)
    (backgroundImage q) (themeSelect q) (glassToggleBtn q)
    (assign (bgSelect q) savedBG).

End Earlier.

(** ** Invariants *)

(** Either both are [null], or the accumulator holds a number and the
    pending operator is one of the four operator texts. *)
Definition paired (s : State) : Prop :=
  (accumulator s = None /\ pendingOp s = None) \/
  (exists a sym, accumulator s = Some a /\ pendingOp s = Some (opMap sym)).

(** [currentInput] holds at most [MAX_DIGITS] digits. *)
Definition within (s : State) : Prop :=
  (Str.digitCount (currentInput s) <= MAX_DIGITS)%nat.

(** [percent], and [equals] with an operator pending, store a number as
    [String] writes it. *)
Definition restringifies (c : Command) (s : State) : bool :=
  match c with
  | CPercent => true
  | CEquals => match pendingOp s with Some _ => true | None => false end
  | _ => false
  end.

(** The commands that start the entry afresh whatever it held: [clear], an
    operator, and a digit, the point or [Backspace] while
    [lastPressedEquals] is set. *)
Definition resets (c : Command) (s : State) : bool :=
  match c with
  | CClear | COperator _ => true
  | CDigit _ | CDecimalPoint | CBackspace => lastPressedEquals s
  | CEquals | CNegate | CPercent => false
  end.

(** Along a run of commands from [s]: whether, at its end, the entry has
    been started afresh since a number was last stored by [percent] or
    [equals]; [ok] says so for [s] itself. *)
Fixpoint guarded (cs : list Command) (s : State) (ok : bool) : bool :=
  match cs with
  | [] => ok
  | c :: r =>
      guarded r (exec c s) (resets c s || (ok && negb (restringifies c s)))
  end.

(** ** Key sequences the statements below run *)

(** [5 + 3 x 2 =]. *)
Definition keys_chain : list Command :=
  [CDigit K5; COperator Plus; CDigit K3; COperator Times; CDigit K2; CEquals].

(** [5 / 0 =]. *)
Definition keys_divide_by_zero : list Command :=
  [CDigit K5; COperator Divide; CDigit K0; CEquals].

(** [5], the sign key, then [Backspace]. *)
Definition keys_minus : list Command := [CDigit K5; CNegate; CBackspace].

(** [5 +], then [5] negated and erased, then the percent key. *)
Definition keys_percent_error : list Command :=
  [CDigit K5; COperator Plus; CDigit K5; CNegate; CBackspace; CPercent].

(** [5 + .00005 %], then the point and the percent key again. *)
Definition keys_percent_error_point : list Command :=
  [CDigit K5; COperator Plus; CDecimalPoint; CDigit K0; CDigit K0; CDigit K0;
   CDigit K0; CDigit K5; CPercent; CDecimalPoint; CPercent].

(** [1.1 %]. *)
Definition keys_percent_long : list Command :=
  [CDigit K1; CDecimalPoint; CDigit K1; CPercent].

(** [1.23456789012 / 10000 =]. *)
Definition keys_equals_long : list Command :=
  [CDigit K1; CDecimalPoint; CDigit K2; CDigit K3; CDigit K4; CDigit K5;
   CDigit K6; CDigit K7; CDigit K8; CDigit K9; CDigit K0; CDigit K1;
   CDigit K2; COperator Divide; CDigit K1; CDigit K0; CDigit K0; CDigit K0;
   CDigit K0; CEquals].

(** [5 + .00000011 %]: the entry holds [1.1000000000000001e-9]. *)
Definition keys_tiny_percent : list Command :=
  [CDigit K5; COperator Plus; CDecimalPoint; CDigit K0; CDigit K0; CDigit K0;
   CDigit K0; CDigit K0; CDigit K0; CDigit K1; CDigit K1; CPercent].

(** Fifteen nines. *)
Definition keys_nines : list Command := List.repeat (CDigit K9) 15.

(** [999999999999999 x] twenty times over, then [999999999999999] once
    more: the accumulator holds the twentieth power, near [1e300], and the
    next fold multiplies it by [1e15] again. *)
Definition keys_overflow : list Command :=
  (flat_map (fun _ => keys_nines ++ [COperator Times]) (seq 0 20)
   ++ keys_nines)%list.

(** ** Basic facts *)

Arguments JS.Number : simpl never.
Arguments JS.ToString : simpl never.
Arguments JS.parseFloat : simpl never.
Arguments JS.toPrecision : simpl never.
Arguments JS.toExponential : simpl never.
Arguments JS.div : simpl never.
Arguments JS.add : simpl never.
Arguments JS.sub : simpl never.
Arguments JS.mul : simpl never.
Arguments roundForDisplay : simpl never.

Lemma state_eta (s : State) :
  mkState (currentInput s) (accumulator s) (pendingOp s)
    (lastPressedEquals s) = s.
Proof. destruct s; reflexivity. Qed.

Lemma setInput_same (s : State) : setInput s (currentInput s) = s.
Proof. destruct s; reflexivity. Qed.

(** [updateDisplay] on the error state shows [Error] and changes nothing. *)
Lemma updateDisplay_error (s : State) :
  currentInput s = "ERROR" -> updateDisplay s = (s, "Error").
Proof.
  intros H. unfold updateDisplay. rewrite H. reflexivity.
Qed.

(** A text of at most [MAX_DIGITS] characters is shown as it is. *)
Lemma updateDisplay_short (s : State) :
  currentInput s <> "ERROR" ->
  (String.length (currentInput s) <= MAX_DIGITS)%nat ->
  updateDisplay s = (s, currentInput s).
Proof.
  intros Hne Hlen. unfold updateDisplay.
  destruct (String.eqb_spec (currentInput s) "ERROR") as [E | _];
    [contradiction |].
  destruct (Nat.ltb_spec MAX_DIGITS (String.length (currentInput s)));
    [lia | reflexivity].
Qed.

(** The state [updateDisplay] leaves: the one it found, or that one with
    [currentInput] replaced by the sentinel, which happens for a long text
    that reads as a non-finite number. *)
Lemma updateDisplay_state (s : State) :
  fst (updateDisplay s) = s \/
  (currentInput s <> "ERROR" /\
   (MAX_DIGITS < String.length (currentInput s))%nat /\
   JS.isFinite (JS.Number (currentInput s)) = false /\
   updateDisplay s = (setInput s "ERROR", "Error")).
Proof.
  unfold updateDisplay.
  destruct (String.eqb_spec (currentInput s) "ERROR") as [E | N];
    [left; reflexivity |].
  destruct (Nat.ltb_spec MAX_DIGITS (String.length (currentInput s)));
    [| left; reflexivity].
  destruct (JS.isFinite (JS.Number (currentInput s))) eqn:F; simpl;
    [left; reflexivity | right; auto].
Qed.

(** Redrawing twice is redrawing once. *)
Lemma updateDisplay_idem (s : State) :
  updateDisplay (fst (updateDisplay s)) = updateDisplay s.
Proof.
  destruct (updateDisplay_state s) as [E | (_ & _ & _ & E)].
  - rewrite E. reflexivity.
  - rewrite E. reflexivity.
Qed.

Lemma updateDisplay_toError (s : State) :
  fst (updateDisplay (toError s)) = toError s.
Proof. reflexivity. Qed.

Lemma run_app (cs ds : list Command) (s : State) :
  run (cs ++ ds) s = run ds (run cs s).
Proof. unfold run. apply fold_left_app. Qed.

Lemma reachable_run (cs : list Command) :
  forall s, reachable s -> reachable (run cs s).
Proof.
  induction cs as [| c cs IH]; intros s Hs; simpl.
  - exact Hs.
  - apply IH. constructor. exact Hs.
Qed.

Lemma reachable_from_initial (cs : list Command) :
  reachable (run cs initial).
Proof. apply (reachable_run cs initial). exact reach_initial. Qed.

(** ** The number model on the texts that matter below *)

Example Number_reads :
  JS.Number "16" = JS.of_Z 16 /\ JS.Number "0." = JS.zero /\
  JS.Number "-" = JS.NaN /\ JS.Number "ERRO" = JS.NaN /\
  JS.Number "5e-7." = JS.NaN /\ JS.Number "5e-" = JS.NaN /\
  JS.Number "" = JS.zero /\ JS.Number "1e400" = S754_infinity false.
Proof. repeat split; vm_compute; reflexivity. Qed.

Example String_writes :
  JS.ToString (JS.of_Z 16) = "16" /\
  JS.ToString (JS.div (JS.Number "1.1") hundred) = "0.011000000000000001" /\
  JS.ToString (JS.div (JS.Number "0.00005") hundred) = "5e-7" /\
  JS.ToString (JS.Number "1e21") = "1e+21" /\
  JS.ToString (JS.Number "123456789012345678901") = "123456789012345680000" /\
  JS.ToString (JS.add (JS.Number "0.1") (JS.Number "0.2"))
    = "0.30000000000000004".
Proof. repeat split; vm_compute; reflexivity. Qed.

Example toPrecision_writes :
  JS.toPrecision (JS.of_Z 16) 12 = "16.0000000000" /\
  JS.toPrecision (JS.Number "0.011000000000000001") 15
    = "0.0110000000000000" /\
  JS.toPrecision (JS.Number "2.5") 1 = "3" /\
  JS.toPrecision (JS.Number "1e21") 12 = "1.00000000000e+21" /\
  JS.toExponential (JS.Number "1e21") 12 = "1.000000000000e+21" /\
  JS.parseFloat "0.0110000000000000" = JS.Number "0.011".
Proof. repeat split; vm_compute; reflexivity. Qed.

(** ** Chain evaluation *)

(** C1: from the initial state the keys [5 + 3 x 2 =] leave [currentInput]
    at [16] and the display shows [16]: the press of [x] has already folded
    [5 + 3] into the accumulator, which holds [8] with [*] pending before
    the [2] is typed. *)
Theorem chain_evaluation_has_no_precedence :
  currentInput (run keys_chain initial) = "16" /\
  shown keys_chain initial = "16" /\
  run [CDigit K5; COperator Plus; CDigit K3; COperator Times] initial
    = mkState "0" (Some (JS.of_Z 8)) (Some "*") false /\
  currentInput (run keys_chain initial) <> "11".
Proof.
  repeat split; try (vm_compute; reflexivity).
  vm_compute. discriminate.
Qed.

(** ** The error state *)

(** While the sentinel is in [currentInput], every command other than
    [clear] and [backspace] leaves the four variables as they are and the
    display at [Error]. *)
Lemma error_latched (c : Command) (s : State) :
  currentInput s = "ERROR" ->
  c <> CClear -> c <> CBackspace ->
  handle c s = (s, "Error").
Proof.
  intros E Hc Hb. unfold handle.
  assert (A : apply c s = s).
  { destruct c; simpl; try congruence;
      unfold inputDigit, pressOperator, pressEquals, toggleNegate, percent;
      rewrite E; reflexivity. }
  rewrite A. apply updateDisplay_error. exact E.
Qed.

(** [clear] leaves the error state. *)
Lemma clear_recovers (s : State) : handle CClear s = (initial, "0").
Proof. reflexivity. Qed.

(** C2: after [5 / 0 =] the engine is in the error state, and [Backspace]
    then changes it: the sentinel loses its last letter, [currentInput] is
    [ERRO] and that is what the display shows.  The [Backspace] branch has
    no test for the sentinel, which every other command starts with. *)
Theorem backspace_edits_the_error_sentinel :
  run keys_divide_by_zero initial = mkState "ERROR" None None false /\
  handle CBackspace (run keys_divide_by_zero initial)
    = (mkState "ERRO" None None false, "ERRO") /\
  exec CBackspace (run keys_divide_by_zero initial)
    <> run keys_divide_by_zero initial.
Proof.
  repeat split; try (vm_compute; reflexivity).
  vm_compute. discriminate.
Qed.

(** C4: the keys [5], sign, [Backspace] leave [currentInput] at the lone
    sign [-]: not the sentinel, and read by [Number] as [NaN].  The
    [Backspace] branch resets a text of one character to [0] and misses the
    text made of a sign and one digit. *)
Theorem backspace_leaves_a_lone_sign :
  reachable (run keys_minus initial) /\
  currentInput (run keys_minus initial) = "-" /\
  currentInput (run keys_minus initial) <> "ERROR" /\
  JS.Number (currentInput (run keys_minus initial)) = JS.NaN /\
  JS.isFinite (JS.Number (currentInput (run keys_minus initial))) = false /\
  shown keys_minus initial = "-".
Proof.
  split; [apply reachable_from_initial |].
  repeat split; try (vm_compute; reflexivity).
  vm_compute. discriminate.
Qed.

(** C6: [percent] and [updateDisplay] put the sentinel in [currentInput]
    and leave [accumulator] and [pendingOp] as they were.  After
    [5 + 5], sign, [Backspace], [%] the engine is in the error state with
    the accumulator still at [5] and [+] still pending. *)
Theorem percent_error_keeps_accumulator :
  reachable (run keys_percent_error initial) /\
  run keys_percent_error initial
    = mkState "ERROR" (Some (JS.of_Z 5)) (Some "+") false /\
  run keys_percent_error_point initial
    = mkState "ERROR" (Some (JS.of_Z 5)) (Some "+") false.
Proof.
  split; [apply reachable_from_initial |].
  split; vm_compute; reflexivity.
Qed.

(** ** [compute] *)

(** C7, as the code has it: with a divisor that is zero, of either sign,
    [compute] returns [null] for every finite [a], zero included, and [NaN]
    for an [a] that is not finite. *)
Theorem compute_divide_by_zero (a b : JS.number) :
  JS.isZero b = true ->
  compute a b "/" = if JS.isFinite a then None else Some JS.NaN.
Proof.
  intros Hb. unfold compute.
  destruct b; try discriminate.
  destruct (JS.isFinite a); reflexivity.
Qed.

Lemma compute_divide_by_zero_witness :
  JS.isZero (S754_zero true) = true /\
  compute JS.zero (S754_zero true) "/" = None /\
  compute (JS.of_Z 5) JS.zero "/" = None.
Proof.
  split; [reflexivity |]. split.
  - apply (compute_divide_by_zero JS.zero (S754_zero true)). reflexivity.
  - apply (compute_divide_by_zero (JS.of_Z 5) JS.zero). reflexivity.
Defined.

(** C7 as stated fails: with an accumulator that is not finite the guard at
    the head of [compute] answers [NaN] before the divisor is looked at. *)
Lemma non_finite_dividend_yields_nan :
  ~ (forall a b : JS.number, JS.isZero b = true -> compute a b "/" = None).
Proof.
  intros H.
  specialize (H (S754_infinity false) JS.zero eq_refl).
  vm_compute in H. discriminate.
Qed.

(** ** The display *)

(** [updateDisplay] never touches the other three variables. *)
Lemma updateDisplay_fields (s : State) :
  accumulator (fst (updateDisplay s)) = accumulator s /\
  pendingOp (fst (updateDisplay s)) = pendingOp s /\
  lastPressedEquals (fst (updateDisplay s)) = lastPressedEquals s.
Proof.
  destruct (updateDisplay_state s) as [E | (_ & _ & _ & E)]; rewrite E;
    repeat split; reflexivity.
Qed.

(** C9: [updateDisplay] leaves [accumulator], [pendingOp] and
    [lastPressedEquals] alone; on a text of more than [MAX_DIGITS]
    characters that reads as a finite number it returns the state it was
    given and shows the number cut to fifteen significant digits; on such a
    text that reads as a non-finite number it writes the sentinel to
    [currentInput] and shows [Error]; and in no other case does the state
    it returns differ from the one it was given. *)
Theorem updateDisplay_frame (s : State) :
  (accumulator (fst (updateDisplay s)) = accumulator s /\
   pendingOp (fst (updateDisplay s)) = pendingOp s /\
   lastPressedEquals (fst (updateDisplay s)) = lastPressedEquals s) /\
  ((MAX_DIGITS < String.length (currentInput s))%nat ->
   JS.isFinite (JS.Number (currentInput s)) = true ->
   updateDisplay s =
     (s, JS.ToString
           (JS.parseFloat (JS.toPrecision (JS.Number (currentInput s)) 15)))) /\
  ((MAX_DIGITS < String.length (currentInput s))%nat ->
   JS.isFinite (JS.Number (currentInput s)) = false ->
   updateDisplay s = (setInput s "ERROR", "Error") /\
   currentInput (fst (updateDisplay s)) = "ERROR") /\
  (fst (updateDisplay s) <> s ->
   (MAX_DIGITS < String.length (currentInput s))%nat /\
   JS.isFinite (JS.Number (currentInput s)) = false /\
   updateDisplay s = (setInput s "ERROR", "Error")).
Proof.
  assert (Hlong_ne : (MAX_DIGITS < String.length (currentInput s))%nat ->
                     (currentInput s =? "ERROR") = false).
  { intros Hlong.
    destruct (String.eqb_spec (currentInput s) "ERROR") as [E | _];
      [| reflexivity].
    rewrite E in Hlong. simpl in Hlong. unfold MAX_DIGITS in Hlong. lia. }
  split; [apply updateDisplay_fields |]. split; [| split].
  - intros Hlong Hfin. unfold updateDisplay.
    rewrite (Hlong_ne Hlong).
    destruct (Nat.ltb_spec MAX_DIGITS (String.length (currentInput s)));
      [| lia].
    rewrite Hfin. reflexivity.
  - intros Hlong Hfin.
    assert (E : updateDisplay s = (setInput s "ERROR", "Error")).
    { unfold updateDisplay. rewrite (Hlong_ne Hlong).
      destruct (Nat.ltb_spec MAX_DIGITS (String.length (currentInput s)));
        [| lia].
      rewrite Hfin. reflexivity. }
    split; [exact E | rewrite E; reflexivity].
  - intros Hchg.
    destruct (updateDisplay_state s) as [E | (_ & Hlong & Hfin & E)];
      [contradiction | auto].
Qed.

Lemma updateDisplay_frame_witness :
  updateDisplay (run keys_percent_long initial)
    = (mkState "0.011000000000000001" None None false, "0.011") /\
  currentInput (backspace (run keys_tiny_percent initial))
    = "1.1000000000000001e-" /\
  updateDisplay (backspace (run keys_tiny_percent initial))
    = (mkState "ERROR" (Some (JS.of_Z 5)) (Some "+") false, "Error").
Proof.
  destruct (updateDisplay_frame (run keys_percent_long initial))
    as (_ & H & _).
  destruct (updateDisplay_frame (backspace (run keys_tiny_percent initial)))
    as (_ & _ & G & _).
  split; [| split].
  - rewrite H.
    + vm_compute; reflexivity.
    + apply Nat.ltb_lt. vm_compute; reflexivity.
    + vm_compute; reflexivity.
  - vm_compute; reflexivity.
  - destruct G as (G & _).
    + apply Nat.ltb_lt. vm_compute; reflexivity.
    + vm_compute; reflexivity.
    + rewrite G. vm_compute; reflexivity.
Defined.

(** ** Equals *)

(** With nothing pending, [pressEquals] only raises the flag. *)
Lemma pressEquals_nothing_pending (s : State) :
  currentInput s <> "ERROR" -> pendingOp s = None ->
  pressEquals s = mkState (currentInput s) (accumulator s) None true.
Proof.
  intros Hne Hp. unfold pressEquals.
  destruct (String.eqb_spec (currentInput s) "ERROR"); [contradiction |].
  rewrite Hp. reflexivity.
Qed.

Lemma pressEquals_fixed (s : State) :
  pendingOp s = None -> lastPressedEquals s = true -> pressEquals s = s.
Proof.
  intros Hp Hl. unfold pressEquals.
  destruct (currentInput s =? "ERROR"); [reflexivity |].
  rewrite Hp. destruct s; simpl in *; subst; reflexivity.
Qed.

(** What an equals evaluation that succeeds leaves. *)
Lemma pressEquals_success (s : State) (op : string) (r : JS.number) :
  currentInput s <> "ERROR" ->
  pendingOp s = Some op ->
  compute (match accumulator s with None => JS.zero | Some a => a end)
    (JS.Number (currentInput s)) op = Some r ->
  JS.isFinite r = true ->
  pressEquals s = mkState (JS.ToString (roundForDisplay r)) None None true.
Proof.
  intros Hne Hp Hc Hf. unfold pressEquals.
  destruct (String.eqb_spec (currentInput s) "ERROR"); [contradiction |].
  rewrite Hp, Hc, Hf. reflexivity.
Qed.

(** C8: after an equals evaluation that succeeded, any number of further
    presses of equals leave the four variables and the text on the display
    as the first press left them; nothing is pending after the first press,
    so the later ones compute nothing. *)
Theorem equals_is_idempotent (s : State) (op : string) (r : JS.number)
    (n : nat) :
  currentInput s <> "ERROR" ->
  pendingOp s = Some op ->
  compute (match accumulator s with None => JS.zero | Some a => a end)
    (JS.Number (currentInput s)) op = Some r ->
  JS.isFinite r = true ->
  pendingOp (exec CEquals s) = None /\
  lastPressedEquals (exec CEquals s) = true /\
  pressEquals (exec CEquals s) = exec CEquals s /\
  Nat.iter n (exec CEquals) (exec CEquals s) = exec CEquals s /\
  handle CEquals (Nat.iter n (exec CEquals) (exec CEquals s))
    = (exec CEquals s, snd (handle CEquals s)).
Proof.
  intros Hne Hp Hc Hf.
  pose proof (pressEquals_success s op r Hne Hp Hc Hf) as E.
  unfold exec, handle. simpl apply. rewrite E.
  set (t := mkState (JS.ToString (roundForDisplay r)) None None true).
  destruct (updateDisplay_fields t) as (_ & Hpo & Hlpe).
  assert (Hfix : pressEquals (fst (updateDisplay t)) = fst (updateDisplay t))
    by (apply pressEquals_fixed; assumption).
  assert (Hiter : Nat.iter n
            (fun s0 => fst (updateDisplay (pressEquals s0)))
            (fst (updateDisplay t)) = fst (updateDisplay t)).
  { induction n as [| k IH]; simpl; [reflexivity |].
    rewrite IH, Hfix, updateDisplay_idem. reflexivity. }
  repeat split; try assumption.
  rewrite Hiter, Hfix, updateDisplay_idem.
  destruct (updateDisplay t); reflexivity.
Qed.

Lemma equals_is_idempotent_witness :
  let s := run [CDigit K5; COperator Plus; CDigit K3] initial in
  Nat.iter 3 (exec CEquals) (exec CEquals s) = exec CEquals s /\
  handle CEquals (Nat.iter 3 (exec CEquals) (exec CEquals s))
    = (exec CEquals s, snd (handle CEquals s)).
Proof.
  intros s.
  assert (Hne : currentInput s <> "ERROR") by (vm_compute; discriminate).
  assert (Hp : pendingOp s = Some "+") by (vm_compute; reflexivity).
  assert (Hc : compute
            (match accumulator s with None => JS.zero | Some a => a end)
            (JS.Number (currentInput s)) "+" = Some (JS.of_Z 8))
    by (vm_compute; reflexivity).
  assert (Hf : JS.isFinite (JS.of_Z 8) = true) by (vm_compute; reflexivity).
  destruct (equals_is_idempotent s "+" (JS.of_Z 8) 3 Hne Hp Hc Hf)
    as (_ & _ & _ & H1 & H2).
  split; assumption.
Defined.

(** ** Accumulator and pending operator go together *)

Lemma paired_cleared (text : string) (b : bool) :
  paired (mkState text None None b).
Proof. left. split; reflexivity. Qed.

Lemma paired_set (text : string) (a : JS.number) (sym : OpSymbol) (b : bool) :
  paired (mkState text (Some a) (Some (opMap sym)) b).
Proof. right. exists a, sym. split; reflexivity. Qed.

Lemma paired_setInput (s : State) (text : string) :
  paired s -> paired (setInput s text).
Proof. intros H. exact H. Qed.

Lemma paired_updateDisplay (s : State) :
  paired s -> paired (fst (updateDisplay s)).
Proof.
  intros H. destruct (updateDisplay_fields s) as (Ha & Hp & _).
  unfold paired. rewrite Ha, Hp. exact H.
Qed.

Create HintDb calc.

#[local] Hint Resolve paired_cleared paired_set paired_setInput
  paired_updateDisplay : calc.

Ltac split_ifs :=
  repeat match goal with
    | |- context [if ?b then _ else _] => destruct b
    | |- context [match ?o with Some _ => _ | None => _ end] => destruct o
    end.

Lemma paired_inputDigit (d : string) (s : State) :
  paired s -> paired (inputDigit d s).
Proof.
  intros H. unfold inputDigit.
  destruct (currentInput s =? "ERROR"); [exact H |].
  destruct (lastPressedEquals s); cbv zeta; split_ifs; auto with calc.
Qed.

Lemma paired_pressOperator (sym : OpSymbol) (s : State) :
  paired s -> paired (pressOperator sym s).
Proof.
  intros H. unfold pressOperator.
  destruct (currentInput s =? "ERROR"); [exact H |]. cbv zeta.
  destruct (accumulator s) as [acc |]; [| auto with calc].
  destruct (negb (lastPressedEquals s) || truthy (pendingOp s));
    [| auto with calc].
  destruct (compute acc (JS.Number (currentInput s))
              (orElse (pendingOp s) (opMap sym))); auto with calc.
  rewrite updateDisplay_toError. apply paired_cleared.
Qed.

Lemma paired_pressEquals (s : State) :
  paired s -> paired (pressEquals s).
Proof.
  intros H. unfold pressEquals.
  destruct (currentInput s =? "ERROR"); [exact H |].
  destruct (pendingOp s) as [op |] eqn:Hp.
  - cbv zeta.
    destruct (compute _ _ op) as [r |];
      [destruct (negb (JS.isFinite r)) |];
      try rewrite updateDisplay_toError; apply paired_cleared.
  - destruct H as [(Ha & _) | (a & sym & _ & Hq)]; [| congruence].
    rewrite Ha. apply paired_cleared.
Qed.

Lemma paired_apply (c : Command) (s : State) :
  paired s -> paired (apply c s).
Proof.
  intros H. destruct c; simpl.
  - apply paired_inputDigit, H.
  - apply paired_inputDigit, H.
  - apply paired_pressOperator, H.
  - apply paired_pressEquals, H.
  - apply paired_cleared.
  - unfold toggleNegate. split_ifs; auto with calc.
  - unfold percent. split_ifs; cbv zeta; split_ifs; auto with calc.
  - unfold backspace, clearAll. split_ifs; auto with calc.
Qed.

Lemma paired_reachable (s : State) : reachable s -> paired s.
Proof.
  induction 1 as [| c s _ IH].
  - apply paired_updateDisplay, paired_cleared.
  - unfold exec, handle. apply paired_updateDisplay, paired_apply, IH.
Qed.

(** C10: in every reachable state [accumulator] is [null] exactly when
    [pendingOp] is; and when the accumulator holds a number, [pendingOp]
    is one of the four operator texts, so that the fold of an operator
    press, which runs only with a number in the accumulator, computes with
    the pending operator and not with the one just pressed. *)
Theorem accumulator_null_iff_pendingOp_null (s : State) :
  reachable s ->
  (accumulator s = None <-> pendingOp s = None) /\
  (forall a, accumulator s = Some a ->
     exists sym, pendingOp s = Some (opMap sym) /\
       truthy (pendingOp s) = true /\
       forall op, orElse (pendingOp s) op = opMap sym).
Proof.
  intros Hr. apply paired_reachable in Hr.
  destruct Hr as [(Ha & Hp) | (a & sym & Ha & Hp)].
  - split; [tauto |]. intros a E. congruence.
  - split; [split; congruence |].
    intros a' _. exists sym. rewrite Hp.
    repeat split; destruct sym; reflexivity.
Qed.

Lemma accumulator_null_iff_pendingOp_null_witness :
  let s := exec (COperator Plus) (exec (CDigit K5) (fst (updateDisplay initial))) in
  reachable s /\
  (accumulator s = None <-> pendingOp s = None) /\
  pendingOp s = Some "+".
Proof.
  intros s.
  assert (Hr : reachable s) by (repeat constructor).
  destruct (accumulator_null_iff_pendingOp_null s Hr) as (H & _).
  split; [exact Hr |]. split; [exact H | reflexivity].
Defined.

(** ** Where an evaluation turns into the error state *)

(** A number that is not finite on either side makes [compute] answer
    [NaN]. *)
Lemma compute_non_finite (a b : JS.number) (op : string) :
  JS.isFinite a = false -> compute a b op = Some JS.NaN.
Proof. intros H. unfold compute. rewrite H. reflexivity. Qed.

(** C3, as the code has it.  Outside the error state: an equals evaluation
    whose result is [null] or a non-finite number, and a fold at an
    operator press whose result is [null], put the sentinel in
    [currentInput] and clear [accumulator] and [pendingOp] in that same
    command; a fold at an operator press whose result is a number, finite
    or not, stores it in the accumulator, and an equals evaluation on an
    accumulator that is not finite then ends in the error state. *)
Theorem evaluation_errors (s : State) (Hne : currentInput s <> "ERROR") :
  (forall op, pendingOp s = Some op ->
     let result :=
       compute (match accumulator s with None => JS.zero | Some a => a end)
         (JS.Number (currentInput s)) op in
     result = None \/ (exists r, result = Some r /\ JS.isFinite r = false) ->
     exec CEquals s = mkState "ERROR" None None (lastPressedEquals s)) /\
  (forall sym acc, accumulator s = Some acc ->
     negb (lastPressedEquals s) || truthy (pendingOp s) = true ->
     compute acc (JS.Number (currentInput s))
       (orElse (pendingOp s) (opMap sym)) = None ->
     exec (COperator sym) s = mkState "ERROR" None None (lastPressedEquals s)) /\
  (forall sym acc r, accumulator s = Some acc ->
     negb (lastPressedEquals s) || truthy (pendingOp s) = true ->
     compute acc (JS.Number (currentInput s))
       (orElse (pendingOp s) (opMap sym)) = Some r ->
     exec (COperator sym) s = mkState "0" (Some r) (Some (opMap sym)) false) /\
  (forall op acc, pendingOp s = Some op -> accumulator s = Some acc ->
     JS.isFinite acc = false ->
     exec CEquals s = mkState "ERROR" None None (lastPressedEquals s)).
Proof.
  assert (Heq : forall op, pendingOp s = Some op ->
     let result :=
       compute (match accumulator s with None => JS.zero | Some a => a end)
         (JS.Number (currentInput s)) op in
     result = None \/ (exists r, result = Some r /\ JS.isFinite r = false) ->
     exec CEquals s = mkState "ERROR" None None (lastPressedEquals s)).
  { intros op Hp result Hres. unfold exec, handle. simpl apply.
    unfold pressEquals.
    destruct (String.eqb_spec (currentInput s) "ERROR"); [contradiction |].
    rewrite Hp. cbv zeta. fold result.
    destruct Hres as [E | (r & E & Hf)]; rewrite E; [| rewrite Hf];
      reflexivity. }
  split; [exact Heq |]. split; [| split].
  - intros sym acc Ha Hfold Hc. unfold exec, handle. simpl apply.
    unfold pressOperator.
    destruct (String.eqb_spec (currentInput s) "ERROR"); [contradiction |].
    cbv zeta. rewrite Ha, Hfold, Hc. reflexivity.
  - intros sym acc r Ha Hfold Hc. unfold exec, handle. simpl apply.
    unfold pressOperator.
    destruct (String.eqb_spec (currentInput s) "ERROR"); [contradiction |].
    cbv zeta. rewrite Ha, Hfold, Hc. reflexivity.
  - intros op acc Hp Ha Hf. apply (Heq op Hp). right.
    exists JS.NaN. rewrite Ha. split; [| reflexivity].
    apply compute_non_finite, Hf.
Qed.

Lemma evaluation_errors_witness :
  let s := run [CDigit K5; COperator Divide; CDigit K0] initial in
  currentInput s <> "ERROR" /\
  exec CEquals s = mkState "ERROR" None None false.
Proof.
  intros s.
  assert (Hne : currentInput s <> "ERROR") by (vm_compute; discriminate).
  split; [exact Hne |].
  destruct (evaluation_errors s Hne) as (H & _).
  apply (H "/"); [vm_compute; reflexivity | left; vm_compute; reflexivity].
Defined.

(** C3 as stated fails at an operator press.  After [keys_overflow] the
    accumulator holds a finite number near [1e300] with [*] pending and
    [currentInput] is [999999999999999]; the fold of the next operator
    press overflows to infinity, and the command ends with infinity in the
    accumulator and [0] in [currentInput], not in the error state. *)
Lemma fold_overflow_is_not_an_error :
  ~ (forall (s : State) (sym : OpSymbol) (acc r : JS.number),
       reachable s ->
       currentInput s <> "ERROR" ->
       accumulator s = Some acc ->
       negb (lastPressedEquals s) || truthy (pendingOp s) = true ->
       compute acc (JS.Number (currentInput s))
         (orElse (pendingOp s) (opMap sym)) = Some r ->
       JS.isFinite r = false ->
       currentInput (exec (COperator sym) s) = "ERROR" /\
       accumulator (exec (COperator sym) s) = None /\
       pendingOp (exec (COperator sym) s) = None).
Proof.
  intros H.
  assert (E : currentInput (exec (COperator Plus) (run keys_overflow initial))
              = "ERROR").
  { eapply (H (run keys_overflow initial) Plus
              (S754_finite false 6724873095247126 944)
              (S754_infinity false)).
    - apply reachable_from_initial.
    - vm_compute. discriminate.
    - vm_compute. reflexivity.
    - vm_compute. reflexivity.
    - vm_compute. reflexivity.
    - reflexivity. }
  vm_compute in E. discriminate.
Qed.

(** The state that counterexample ends in, and the equals that follows. *)
Lemma fold_overflow_then_equals :
  exec (COperator Plus) (run keys_overflow initial)
    = mkState "0" (Some (S754_infinity false)) (Some "+") false /\
  run [COperator Plus; CDigit K1; CEquals] (run keys_overflow initial)
    = mkState "ERROR" None None false.
Proof. split; vm_compute; reflexivity. Qed.

(** ** The digit bound *)

Lemma digitCount_app (s t : string) :
  Str.digitCount (s ++ t) = (Str.digitCount s + Str.digitCount t)%nat.
Proof.
  induction s as [| a s IH]; simpl; [reflexivity |].
  destruct (Str.is_digit a); simpl; rewrite IH; reflexivity.
Qed.

Lemma digitCount_le_length (s : string) :
  (Str.digitCount s <= String.length s)%nat.
Proof.
  induction s as [| a s IH]; simpl; [lia |].
  destruct (Str.is_digit a); lia.
Qed.

(** The script counts the characters left once the first point is taken
    out; that count is never below the number of digits. *)
Lemma digitCount_le_remove_point (s : string) :
  (Str.digitCount s <= String.length (Str.remove_first s "."))%nat.
Proof.
  induction s as [| a s IH]; simpl; [lia |].
  destruct (Ascii.eqb_spec a ".") as [-> | _].
  - simpl. apply digitCount_le_length.
  - simpl. destruct (Str.is_digit a); lia.
Qed.

Lemma digitCount_slice_init (s : string) :
  (Str.digitCount (Str.slice_init s) <= Str.digitCount s)%nat.
Proof.
  induction s as [| a s IH]; [simpl; lia |].
  destruct s as [| b s].
  - simpl. destruct (Str.is_digit a); lia.
  - change (Str.slice_init (String a (String b s)))
      with (String a (Str.slice_init (String b s))).
    remember (String b s) as t eqn:Et. simpl.
    destruct (Str.is_digit a); lia.
Qed.

Lemma digitCount_slice1 (s : string) :
  (Str.digitCount (Str.slice1 s) <= Str.digitCount s)%nat.
Proof.
  destruct s as [| a s]; simpl; [lia |]. destruct (Str.is_digit a); lia.
Qed.

Lemma digitCount_keyText (k : DigitKey) : Str.digitCount (keyText k) = 1%nat.
Proof. destruct k; reflexivity. Qed.

Lemma keyText_not_point (k : DigitKey) : (keyText k =? ".") = false.
Proof. destruct k; reflexivity. Qed.

Lemma within_updateDisplay (s : State) :
  within s -> within (fst (updateDisplay s)).
Proof.
  intros H.
  destruct (updateDisplay_state s) as [E | (_ & _ & _ & E)]; rewrite E.
  - exact H.
  - unfold within, MAX_DIGITS. simpl. lia.
Qed.

Lemma within_inputDigit (k : DigitKey) (s : State) :
  within s -> within (inputDigit (keyText k) s).
Proof.
  intros H. unfold inputDigit.
  destruct (currentInput s =? "ERROR"); [exact H |].
  assert (G : forall t, within t ->
    within (if keyText k =? "." then
              if Str.includes (currentInput t) "." then t
              else setInput t (currentInput t ++ ".")
            else if currentInput t =? "0" then setInput t (keyText k)
            else if (MAX_DIGITS <=?
                     String.length (Str.remove_first (currentInput t) "."))%nat
            then t
            else setInput t (currentInput t ++ keyText k))).
  { intros t Ht. rewrite keyText_not_point.
    destruct (currentInput t =? "0").
    - unfold within. simpl. rewrite digitCount_keyText.
      unfold MAX_DIGITS. lia.
    - destruct (Nat.leb_spec MAX_DIGITS
                  (String.length (Str.remove_first (currentInput t) ".")))
        as [_ | Hlt]; [exact Ht |].
      unfold within. simpl. rewrite digitCount_app, digitCount_keyText.
      pose proof (digitCount_le_remove_point (currentInput t)). lia. }
  destruct (lastPressedEquals s); cbv zeta; apply G; [| exact H].
  unfold within, MAX_DIGITS. simpl. lia.
Qed.

Lemma within_inputPoint (s : State) :
  within s -> within (inputDigit "." s).
Proof.
  intros H. unfold inputDigit.
  destruct (currentInput s =? "ERROR"); [exact H |].
  assert (G : forall t, within t ->
    within (if Str.includes (currentInput t) "." then t
            else setInput t (currentInput t ++ "."))).
  { intros t Ht. destruct (Str.includes (currentInput t) "."); [exact Ht |].
    unfold within in *. simpl. rewrite digitCount_app. simpl. lia. }
  destruct (lastPressedEquals s); cbv zeta; simpl (_ =? _); apply G;
    [| exact H].
  unfold within, MAX_DIGITS. simpl. lia.
Qed.

Lemma within_pressOperator (sym : OpSymbol) (s : State) :
  within s -> within (pressOperator sym s).
Proof.
  intros H. unfold pressOperator.
  destruct (currentInput s =? "ERROR"); [exact H |]. cbv zeta.
  split_ifs; try rewrite updateDisplay_toError;
    unfold within, MAX_DIGITS; simpl; lia.
Qed.

Lemma within_toggleNegate (s : State) : within s -> within (toggleNegate s).
Proof.
  intros H. unfold toggleNegate. split_ifs; try exact H.
  unfold within in *. simpl.
  pose proof (digitCount_slice1 (currentInput s)). lia.
Qed.

Lemma within_backspace (s : State) : within s -> within (backspace s).
Proof.
  intros H. unfold backspace, clearAll. split_ifs; unfold within in *; simpl.
  - unfold MAX_DIGITS. lia.
  - unfold MAX_DIGITS. lia.
  - pose proof (digitCount_slice_init (currentInput s)). lia.
Qed.

(** No command other than [percent] and [equals] takes the digit count of
    [currentInput] past [MAX_DIGITS]. *)
Lemma within_exec (c : Command) (s : State) :
  c <> CPercent -> c <> CEquals -> within s -> within (exec c s).
Proof.
  intros Hp He H. unfold exec, handle. apply within_updateDisplay.
  destruct c; simpl; try congruence.
  - apply within_inputDigit, H.
  - apply within_inputPoint, H.
  - apply within_pressOperator, H.
  - unfold within, MAX_DIGITS. simpl. lia.
  - apply within_toggleNegate, H.
  - apply within_backspace, H.
Qed.

(** A command that starts the entry afresh leaves at most [MAX_DIGITS]
    digits, whatever the entry held. *)
Lemma within_reset (c : Command) (s : State) :
  resets c s = true -> within (exec c s).
Proof.
  intros Hr. unfold exec, handle. apply within_updateDisplay.
  assert (Z : forall t, within (mkState "0" None None false) /\
                        (currentInput t = "ERROR" -> within t)).
  { intros t. split; unfold within, MAX_DIGITS.
    - simpl. lia.
    - intros E. rewrite E. simpl. lia. }
  destruct c; cbn [apply resets] in *; try discriminate.
  - unfold inputDigit.
    destruct (String.eqb_spec (currentInput s) "ERROR") as [E | _];
      [apply (Z s), E |].
    rewrite Hr. cbv zeta. apply (within_inputDigit k (mkState "0" None None true)).
    apply (Z s).
  - unfold inputDigit.
    destruct (String.eqb_spec (currentInput s) "ERROR") as [E | _];
      [apply (Z s), E |].
    rewrite Hr. cbv zeta. unfold within, MAX_DIGITS. simpl. lia.
  - unfold pressOperator.
    destruct (String.eqb_spec (currentInput s) "ERROR") as [E | _];
      [apply (Z s), E |].
    cbv zeta. split_ifs; try rewrite updateDisplay_toError;
      unfold within, MAX_DIGITS; simpl; lia.
  - apply (Z s).
  - unfold backspace. rewrite Hr. apply (Z s).
Qed.

(** A command that stores no number keeps an entry of at most
    [MAX_DIGITS] digits within the bound. *)
Lemma within_kept (c : Command) (s : State) :
  restringifies c s = false -> within s -> within (exec c s).
Proof.
  intros Hn H. destruct c; try discriminate;
    try (apply within_exec; [discriminate | discriminate | exact H]).
  cbn [restringifies] in Hn.
  destruct (pendingOp s) eqn:Hp; [discriminate |].
  unfold exec, handle. apply within_updateDisplay.
  cbn [apply]. unfold pressEquals.
  destruct (currentInput s =? "ERROR"); [exact H |].
  rewrite Hp. exact H.
Qed.

Lemma within_guarded (cs : list Command) :
  forall s ok,
  (ok = true -> within s) ->
  guarded cs s ok = true -> within (run cs s).
Proof.
  induction cs as [| c cs IH]; intros s ok Hok G.
  - apply Hok. exact G.
  - cbn [guarded] in G.
    change (run (c :: cs) s) with (run cs (exec c s)).
    refine (IH _ _ _ G).
    intros E. apply Bool.orb_true_iff in E. destruct E as [E | E].
    + apply within_reset, E.
    + apply Bool.andb_true_iff in E. destruct E as (E1 & E2).
      apply Bool.negb_true_iff in E2.
      apply within_kept; [exact E2 | apply Hok, E1].
Qed.

(** The bound after any history, once the entry has been started afresh
    and no number stored since. *)
Lemma within_after_reset (pre cs : list Command) (c : Command) (s : State) :
  resets c (run pre s) = true ->
  Forall (fun d => d <> CPercent /\ d <> CEquals) cs ->
  within (run (pre ++ c :: cs) s).
Proof.
  intros Hr Hcs. rewrite run_app.
  change (run (c :: cs) (run pre s)) with (run cs (exec c (run pre s))).
  pose proof (within_reset c (run pre s) Hr) as H.
  revert H. generalize (exec c (run pre s)).
  induction Hcs as [| d cs (Hp & He) _ IH]; intros t Ht; [exact Ht |].
  change (run (d :: cs) t) with (run cs (exec d t)).
  apply IH, within_exec; assumption.
Qed.

(** C5, as the code has it: in a state reached from the initial one,
    [currentInput] holds at most [MAX_DIGITS] digits whenever, since
    [percent] or an [equals] with an operator pending last ran, the entry
    has been started afresh by [clear], by an operator, or by a digit, the
    point or [Backspace] pressed with [lastPressedEquals] set; and so in
    particular when neither has run at all. *)
Theorem digit_bound_since_reset (cs : list Command) :
  guarded cs initial true = true ->
  (Str.digitCount (currentInput (run cs initial)) <= MAX_DIGITS)%nat.
Proof.
  intros G. apply (within_guarded cs initial true); [| exact G].
  intros _. unfold within, MAX_DIGITS. simpl. lia.
Qed.

Lemma digit_bound_since_reset_witness :
  guarded (keys_percent_long ++ CNegate :: COperator Times :: keys_nines
           ++ [CDigit K9; CEquals; CNegate; CDigit K7; CDigit K7])
    initial true = true /\
  currentInput
    (run (keys_percent_long ++ CNegate :: COperator Times :: keys_nines
          ++ [CDigit K9; CEquals; CNegate; CDigit K7; CDigit K7]) initial)
    = "77" /\
  (Str.digitCount
     (currentInput
        (run (keys_percent_long ++ CNegate :: COperator Times :: keys_nines
              ++ [CDigit K9; CEquals; CNegate; CDigit K7; CDigit K7])
           initial))
   <= MAX_DIGITS)%nat.
Proof.
  assert (G : guarded
                (keys_percent_long ++ CNegate :: COperator Times :: keys_nines
                 ++ [CDigit K9; CEquals; CNegate; CDigit K7; CDigit K7])
                initial true = true) by (vm_compute; reflexivity).
  split; [exact G |]. split; [vm_compute; reflexivity |].
  apply (digit_bound_since_reset _ G).
Defined.

(** C5 as stated fails: [1.1 %] stores the quotient as [String] writes it,
    [0.011000000000000001], with nineteen digits, seventeen of them
    significant. *)
Lemma percent_breaks_the_digit_bound :
  ~ (forall s : State, reachable s ->
       (Str.digitCount (currentInput s) <= MAX_DIGITS)%nat).
Proof.
  intros H.
  specialize (H (run keys_percent_long initial) (reachable_from_initial _)).
  vm_compute in H.
  repeat (apply le_S_n in H). inversion H.
Qed.

(** What [percent] and [equals] store in those cases. *)
Lemma restringified_lengths :
  currentInput (run keys_percent_long initial) = "0.011000000000000001" /\
  Str.digitCount (currentInput (run keys_percent_long initial)) = 19%nat /\
  currentInput (run keys_equals_long initial) = "0.000123456789012" /\
  Str.digitCount (currentInput (run keys_equals_long initial)) = 16%nat.
Proof. repeat split; vm_compute; reflexivity. Qed.

(** ** Entering digits *)

Lemma keysText_app (ds es : list DigitKey) :
  keysText (ds ++ es) = keysText ds ++ keysText es.
Proof.
  induction ds as [| k ds IH]; simpl; [reflexivity |].
  rewrite IH. destruct k; reflexivity.
Qed.

Lemma keysText_length (ds : list DigitKey) :
  String.length (keysText ds) = List.length ds.
Proof.
  induction ds as [| k ds IH]; simpl; [reflexivity |].
  destruct k; simpl; rewrite IH; reflexivity.
Qed.

Lemma keysText_no_point (ds : list DigitKey) :
  Str.remove_first (keysText ds) "." = keysText ds.
Proof.
  induction ds as [| k ds IH]; simpl; [reflexivity |].
  destruct k; simpl; rewrite IH; reflexivity.
Qed.

(** A text of digits that starts with a digit other than zero is neither
    the sentinel nor the lone zero. *)
Lemma keysText_plain (ds : list DigitKey) :
  isK0 (hd K0 ds) = false ->
  (keysText ds =? "ERROR") = false /\ (keysText ds =? "0") = false.
Proof.
  destruct ds as [| k ds]; simpl; [discriminate |].
  destruct k; simpl; try discriminate; intros _; split; reflexivity.
Qed.

Lemma firstn_firstn_app {A : Type} (n : nat) (l r : list A) :
  firstn n (firstn n l ++ r) = firstn n (l ++ r).
Proof.
  revert l; induction n as [| n IH]; intros l; [reflexivity |].
  destruct l as [| a l]; simpl; [reflexivity |].
  rewrite IH. reflexivity.
Qed.

(** One digit key on an entry that already starts with a digit other than
    zero: the digit is appended while there is room. *)
Lemma exec_digit_on_digits (k : DigitKey) (ds : list DigitKey) (s : State) :
  currentInput s = keysText ds ->
  isK0 (hd K0 ds) = false ->
  (List.length ds <= MAX_DIGITS)%nat ->
  lastPressedEquals s = false ->
  exec (CDigit k) s = setInput s (keysText (firstn MAX_DIGITS (ds ++ [k]))).
Proof.
  intros Hc Hd Hlen Hl.
  destruct (keysText_plain ds Hd) as (Herr & Hzero).
  assert (A : apply (CDigit k) s
              = setInput s (keysText (firstn MAX_DIGITS (ds ++ [k])))).
  { change (apply (CDigit k) s) with (inputDigit (keyText k) s).
    unfold inputDigit. rewrite Hc, Herr, Hl. cbv zeta.
    rewrite keyText_not_point, Hc, Hzero, keysText_no_point, keysText_length.
    destruct (Nat.leb_spec MAX_DIGITS (List.length ds)) as [Hge | Hlt].
    - rewrite firstn_app.
      replace (MAX_DIGITS - List.length ds)%nat with 0%nat by lia.
      rewrite firstn_all2 by lia. rewrite firstn_O, app_nil_r.
      rewrite <- Hc. symmetry. apply setInput_same.
    - rewrite firstn_all2 by (rewrite length_app; simpl; lia).
      rewrite keysText_app. destruct k; reflexivity. }
  unfold exec, handle. rewrite A.
  rewrite updateDisplay_short; [reflexivity | |].
  - cbn [currentInput setInput].
    destruct (firstn MAX_DIGITS (ds ++ [k])) as [| d r] eqn:E.
    + destruct ds; discriminate.
    + destruct d; simpl; discriminate.
  - cbn [currentInput setInput]. rewrite keysText_length.
    apply firstn_le_length.
Qed.

Lemma run_digits_on_digits (ks ds : list DigitKey) :
  forall s,
  currentInput s = keysText ds ->
  isK0 (hd K0 ds) = false ->
  (List.length ds <= MAX_DIGITS)%nat ->
  lastPressedEquals s = false ->
  run (map CDigit ks) s = setInput s (keysText (firstn MAX_DIGITS (ds ++ ks))).
Proof.
  revert ds. induction ks as [| k ks IH]; intros ds s Hc Hd Hlen Hl;
    cbn [map run fold_left].
  - rewrite app_nil_r, firstn_all2 by lia. rewrite <- Hc.
    symmetry. apply setInput_same.
  - change (fold_left (fun st c => exec c st) (map CDigit ks)
              (exec (CDigit k) s))
      with (run (map CDigit ks) (exec (CDigit k) s)).
    rewrite (exec_digit_on_digits k ds s Hc Hd Hlen Hl).
    rewrite (IH (firstn MAX_DIGITS (ds ++ [k]))).
    + unfold setInput. cbn [accumulator pendingOp lastPressedEquals].
      rewrite firstn_firstn_app, <- app_assoc. reflexivity.
    + reflexivity.
    + destruct ds as [| d ds]; [discriminate | exact Hd].
    + apply firstn_le_length.
    + exact Hl.
Qed.

(** A digit key on an entry that stands at [0] replaces the zero. *)
Lemma exec_digit_on_zero (k : DigitKey) (s : State) :
  currentInput s = "0" ->
  lastPressedEquals s = false ->
  exec (CDigit k) s = setInput s (keyText k).
Proof.
  intros Hc Hl. unfold exec, handle.
  change (apply (CDigit k) s) with (inputDigit (keyText k) s).
  unfold inputDigit. rewrite Hc.
  change ("0" =? "ERROR") with false. cbv iota. rewrite Hl. cbv zeta.
  rewrite keyText_not_point, Hc.
  change ("0" =? "0") with true. cbv iota.
  rewrite updateDisplay_short; [reflexivity | |];
    destruct k; simpl; try discriminate; unfold MAX_DIGITS; lia.
Qed.

Lemma typed_plain (ks : list DigitKey) :
  typed ks <> "ERROR" /\ (String.length (typed ks) <= MAX_DIGITS)%nat.
Proof.
  unfold typed. destruct (dropZeros ks) as [| d r].
  - split; [discriminate | simpl; unfold MAX_DIGITS; lia].
  - split.
    + unfold MAX_DIGITS. cbn [firstn keysText]. destruct d; discriminate.
    + rewrite keysText_length. apply firstn_le_length.
Qed.

(** A run of digit keys on an entry that stands at [0]. *)
Lemma run_digits_on_zero (ks : list DigitKey) :
  forall s,
  currentInput s = "0" ->
  lastPressedEquals s = false ->
  run (map CDigit ks) s = setInput s (typed ks).
Proof.
  induction ks as [| k ks IH]; intros s Hc Hl.
  - unfold typed. cbn [map run fold_left dropZeros]. rewrite <- Hc.
    symmetry. apply setInput_same.
  - change (run (map CDigit (k :: ks)) s)
      with (run (map CDigit ks) (exec (CDigit k) s)).
    rewrite (exec_digit_on_zero k s Hc Hl).
    destruct (isK0 k) eqn:Ek.
    + destruct k; try discriminate.
      change (keyText K0) with "0". rewrite <- Hc at 1.
      rewrite setInput_same.
      rewrite (IH s Hc Hl). unfold typed. cbn [dropZeros isK0].
      reflexivity.
    + rewrite (run_digits_on_digits ks [k]).
      * unfold typed. cbn [dropZeros]. rewrite Ek. reflexivity.
      * cbn [keysText currentInput setInput]. destruct k; reflexivity.
      * exact Ek.
      * simpl. unfold MAX_DIGITS. lia.
      * exact Hl.
Qed.

(** X1: on an entry that stands at [0] and is not the result of an equals,
    a run of digit keys leaves the digits typed, without their leading
    zeros and cut after [MAX_DIGITS] digits, in [currentInput]; the other
    three variables keep their values and the display shows that text. *)
Theorem typing_digits (ks : list DigitKey) (s : State) :
  currentInput s = "0" ->
  lastPressedEquals s = false ->
  run (map CDigit ks) s = setInput s (typed ks) /\
  shown (map CDigit ks) s = typed ks.
Proof.
  intros Hc Hl.
  pose proof (run_digits_on_zero ks s Hc Hl) as R.
  split; [exact R |].
  unfold shown. rewrite R.
  destruct (typed_plain ks) as (Hne & Hlen).
  rewrite updateDisplay_short; [reflexivity | exact Hne | exact Hlen].
Qed.

Lemma typing_digits_witness :
  run (map CDigit [K0; K0; K4; K0; K2]) initial
    = mkState "402" None None false /\
  shown (map CDigit [K0; K0; K4; K0; K2]) initial = "402".
Proof.
  apply (typing_digits [K0; K0; K4; K0; K2] initial); reflexivity.
Defined.

(** ** Editing the entry *)

Lemma slice_init_snoc (s : string) (a : ascii) :
  Str.slice_init (s ++ String a EmptyString) = s.
Proof.
  induction s as [| b s IH]; [reflexivity |].
  change (String b s ++ String a EmptyString)
    with (String b (s ++ String a EmptyString)).
  destruct s as [| c s].
  - reflexivity.
  - change (Str.slice_init (String b (String c s ++ String a EmptyString)))
      with (String b (Str.slice_init (String c s ++ String a EmptyString))).
    rewrite IH. reflexivity.
Qed.

Lemma length_append (s t : string) :
  String.length (s ++ t) = (String.length s + String.length t)%nat.
Proof. induction s as [| a s IH]; simpl; [| rewrite IH]; reflexivity. Qed.

Lemma length_remove_first_le (s : string) (c : ascii) :
  (String.length (Str.remove_first s c) <= String.length s)%nat.
Proof.
  induction s as [| a s IH]; simpl; [lia |].
  destruct (Ascii.eqb a c); simpl; lia.
Qed.

Lemma keyText_single (k : DigitKey) :
  exists a, keyText k = String a EmptyString.
Proof. destruct k; eexists; reflexivity. Qed.

(** X2: [Backspace] takes back a digit just typed.  On an entry of one to
    fourteen characters that is neither the sentinel nor the result of an
    equals, a digit key followed by [Backspace] restores the four
    variables: the digit was appended and is cut off again, or it replaced
    the lone [0] and the entry falls back to [0]. *)
Theorem backspace_undoes_digit (k : DigitKey) (s : State) :
  currentInput s <> "ERROR" ->
  lastPressedEquals s = false ->
  (1 <= String.length (currentInput s))%nat ->
  (String.length (currentInput s) < MAX_DIGITS)%nat ->
  exec CBackspace (exec (CDigit k) s) = s.
Proof.
  intros Hne Hl Hlo Hhi.
  assert (Hs : fst (updateDisplay s) = s)
    by (rewrite updateDisplay_short; [reflexivity | exact Hne | lia]).
  destruct (String.eqb_spec (currentInput s) "0") as [Hz | Hnz].
  - rewrite (exec_digit_on_zero k s Hz Hl).
    unfold exec, handle. simpl apply. unfold backspace.
    cbn [lastPressedEquals setInput currentInput]. rewrite Hl.
    destruct (keyText_single k) as (a & ->). simpl String.length.
    simpl (_ <=? _)%nat. cbv iota.
    unfold setInput. cbn [accumulator pendingOp lastPressedEquals].
    rewrite <- Hz. rewrite state_eta. exact Hs.
  - assert (E : exec (CDigit k) s = setInput s (currentInput s ++ keyText k)).
    { unfold exec, handle.
      change (apply (CDigit k) s) with (inputDigit (keyText k) s).
      unfold inputDigit.
      destruct (String.eqb_spec (currentInput s) "ERROR"); [contradiction |].
      rewrite Hl. cbv zeta. rewrite keyText_not_point.
      destruct (String.eqb_spec (currentInput s) "0"); [contradiction |].
      pose proof (length_remove_first_le (currentInput s) ".") as Hr.
      destruct (Nat.leb_spec MAX_DIGITS
                  (String.length (Str.remove_first (currentInput s) ".")));
        [lia |].
      destruct (updateDisplay_state
                  (setInput s (currentInput s ++ keyText k)))
        as [E | (_ & Hlong & _)]; [exact E |].
      cbn [currentInput setInput] in Hlong.
      rewrite length_append in Hlong.
      destruct (keyText_single k) as (a & Ea). rewrite Ea in Hlong.
      simpl in Hlong. lia. }
    rewrite E. unfold exec, handle. simpl apply. unfold backspace.
    cbn [lastPressedEquals setInput currentInput]. rewrite Hl.
    destruct (keyText_single k) as (a & ->).
    rewrite length_append. simpl String.length.
    destruct (Nat.leb_spec (String.length (currentInput s) + 1) 1); [lia |].
    rewrite slice_init_snoc.
    unfold setInput. cbn [accumulator pendingOp lastPressedEquals].
    rewrite state_eta. exact Hs.
Qed.

Lemma backspace_undoes_digit_witness :
  let s := run [CDigit K1; CDecimalPoint; CDigit K5; COperator Plus;
                CDigit K7] initial in
  currentInput s = "7" /\
  exec CBackspace (exec (CDigit K3) s) = s.
Proof.
  intros s. split; [vm_compute; reflexivity |].
  apply (backspace_undoes_digit K3 s).
  - vm_compute. discriminate.
  - vm_compute. reflexivity.
  - apply Nat.leb_le. vm_compute. reflexivity.
  - apply Nat.ltb_lt. vm_compute. reflexivity.
Defined.

(** X3: the sign key pressed twice restores the state, for every entry
    except [-0] and [-ERROR] (whose sign comes off and does not go on
    again, the rest being [0] or the sentinel) and those that start with
    two signs. *)
Theorem toggleNegate_twice (s : State) :
  currentInput s <> "-0" ->
  currentInput s <> "-ERROR" ->
  (forall r, currentInput s <> String "-" (String "-" r)) ->
  toggleNegate (toggleNegate s) = s.
Proof.
  intros H0 HE H2. unfold toggleNegate at 2.
  destruct (String.eqb_spec (currentInput s) "ERROR") as [E | NE].
  { unfold toggleNegate. rewrite E. reflexivity. }
  destruct (String.eqb_spec (currentInput s) "0") as [Z | NZ].
  { unfold toggleNegate. rewrite Z. reflexivity. }
  destruct (currentInput s) as [| a r] eqn:Hc.
  - unfold toggleNegate. cbn. destruct s; simpl in *; subst; reflexivity.
  - cbn [Str.startsWith].
    destruct (Ascii.eqb_spec a "-") as [-> | Na].
    + cbn [Str.slice1]. unfold toggleNegate.
      cbn [currentInput setInput].
      destruct (String.eqb_spec r "ERROR") as [-> | _]; [congruence |].
      destruct (String.eqb_spec r "0") as [-> | _]; [congruence |].
      destruct r as [| b r'].
      * cbn. destruct s; simpl in *; subst; reflexivity.
      * cbn [Str.startsWith].
        destruct (Ascii.eqb_spec b "-") as [-> | _];
          [exfalso; apply (H2 r'); reflexivity |].
        destruct s; simpl in *; subst; reflexivity.
    + unfold toggleNegate. cbn [currentInput setInput].
      change ("-" ++ String a r) with (String "-" (String a r)).
      change (String "-" (String a r) =? "ERROR") with false.
      cbv iota.
      assert (Q : (String "-" (String a r) =? "0") = false)
        by (apply String.eqb_neq; discriminate).
      rewrite Q. cbn [Str.startsWith Str.slice1].
      rewrite Ascii.eqb_refl.
      destruct s; simpl in *; subst; reflexivity.
Qed.

Lemma toggleNegate_twice_witness :
  toggleNegate (toggleNegate (mkState "-12.5" None None false))
    = mkState "-12.5" None None false /\
  toggleNegate (toggleNegate (mkState "-0" None None false))
    = mkState "0" None None false.
Proof.
  split; [| reflexivity].
  apply (toggleNegate_twice (mkState "-12.5" None None false));
    discriminate.
Defined.

(** ** At most one decimal point *)

Lemma points_app (s t : string) :
  points (s ++ t) = (points s + points t)%nat.
Proof.
  induction s as [| a s IH]; simpl; [reflexivity |].
  destruct (Ascii.eqb a "."); simpl; rewrite IH; reflexivity.
Qed.

Lemma points_not_included (s : string) :
  Str.includes s "." = false -> points s = 0%nat.
Proof.
  induction s as [| a s IH]; simpl; [reflexivity |].
  destruct (Ascii.eqb a "."); [discriminate | exact IH].
Qed.

Lemma points_slice_init (s : string) :
  (points (Str.slice_init s) <= points s)%nat.
Proof.
  induction s as [| a s IH]; [simpl; lia |].
  destruct s as [| b s].
  - simpl. destruct (Ascii.eqb a "."); lia.
  - change (Str.slice_init (String a (String b s)))
      with (String a (Str.slice_init (String b s))).
    remember (String b s) as t eqn:Et. simpl.
    destruct (Ascii.eqb a "."); lia.
Qed.

Lemma points_slice1 (s : string) : (points (Str.slice1 s) <= points s)%nat.
Proof.
  destruct s as [| a s]; simpl; [lia |]. destruct (Ascii.eqb a "."); lia.
Qed.

Lemma points_keyText (k : DigitKey) : points (keyText k) = 0%nat.
Proof. destruct k; reflexivity. Qed.

Lemma points_zeros (n : Z) : points (JS.zeros n) = 0%nat.
Proof.
  unfold JS.zeros. induction (Z.to_nat n) as [| m IH]; simpl;
    [reflexivity | exact IH].
Qed.

Lemma points_substring (s : string) :
  forall n m, (points (substring n m s) <= points s)%nat.
Proof.
  induction s as [| a s IH]; intros n m.
  - destruct n, m; simpl; lia.
  - destruct n as [| n].
    + destruct m as [| m]; simpl; [lia |].
      specialize (IH 0%nat m). destruct (Ascii.eqb a "."); lia.
    + simpl. specialize (IH n m). destruct (Ascii.eqb a "."); lia.
Qed.

Lemma digit_char_not_point (k : nat) :
  (k < 10)%nat -> Ascii.eqb (ascii_of_nat (48 + k)) "." = false.
Proof.
  intros H.
  do 10 (destruct k as [| k]; [reflexivity |]). lia.
Qed.

Lemma points_digits_loop (fuel : nat) :
  forall n acc, points (JS.digits_loop fuel n acc) = points acc.
Proof.
  induction fuel as [| f IH]; intros n acc; simpl; [reflexivity |].
  assert (Hk : (Z.to_nat (n mod 10) < 10)%nat).
  { pose proof (Z.mod_pos_bound n 10 eq_refl). lia. }
  assert (Hp : points
                 (String (ascii_of_nat (48 + Z.to_nat (n mod 10))) acc)
               = points acc).
  { cbn [points]. rewrite (digit_char_not_point _ Hk). reflexivity. }
  destruct (n <? 10)%Z; [exact Hp | rewrite IH; exact Hp].
Qed.

Lemma points_digits_of (n : Z) : points (JS.digits_of n) = 0%nat.
Proof. unfold JS.digits_of. apply points_digits_loop. Qed.

Lemma points_point_after_first (m : string) :
  (points (JS.point_after_first m) <= S (points m))%nat.
Proof.
  destruct m as [| a [| b r]]; simpl;
    repeat match goal with
      | |- context [Ascii.eqb ?x "."] => destruct (Ascii.eqb x ".")
      end; lia.
Qed.

Lemma points_exponent_text (e : Z) : points (JS.exponent_text e) = 0%nat.
Proof.
  unfold JS.exponent_text. rewrite !points_app, points_digits_of.
  destruct (e <? 0)%Z; reflexivity.
Qed.

(** [String] writes a number with at most one decimal point. *)
Lemma points_ToString (x : JS.number) : (points (JS.ToString x) <= 1)%nat.
Proof.
  unfold JS.ToString. destruct x as [sg | sg | | sg m e].
  - simpl. lia.
  - destruct sg; simpl; lia.
  - simpl. lia.
  - rewrite points_app.
    assert (Hs : points (if sg then "-" else "") = 0%nat)
      by (destruct sg; reflexivity).
    rewrite Hs. unfold JS.positive_text.
    destruct (JS.ratio_of m e) as [p q].
    destruct (JS.shortest_from _ _ _ _ _) as [[s k] e10].
    cbv zeta.
    destruct ((-5 <=? e10 + 1)%Z && (e10 + 1 <=? 21)%Z).
    + destruct (k <=? e10 + 1)%Z.
      * rewrite points_app, points_digits_of, points_zeros. lia.
      * destruct (0 <? e10 + 1)%Z.
        -- rewrite !points_app.
           pose proof (points_substring (JS.digits_of s) 0
                         (Z.to_nat (e10 + 1))) as H1.
           pose proof (points_substring (JS.digits_of s)
                         (Z.to_nat (e10 + 1))
                         (Z.to_nat (k - (e10 + 1)))) as H2.
           rewrite points_digits_of in H1, H2.
           change (points ".") with 1%nat. lia.
        -- rewrite !points_app, points_zeros, points_digits_of.
           change (points "0.") with 1%nat. lia.
    + rewrite points_app, points_exponent_text.
      pose proof (points_point_after_first (JS.digits_of s)) as H.
      rewrite points_digits_of in H. lia.
Qed.

Lemma one_point_updateDisplay (s : State) :
  (points (currentInput s) <= 1)%nat ->
  (points (currentInput (fst (updateDisplay s))) <= 1)%nat.
Proof.
  intros H.
  destruct (updateDisplay_state s) as [E | (_ & _ & _ & E)]; rewrite E;
    [exact H | simpl; lia].
Qed.

Lemma one_point_inputDigit (d : string) (s : State) :
  points d = 0%nat \/ d = "." ->
  (points (currentInput s) <= 1)%nat ->
  (points (currentInput (inputDigit d s)) <= 1)%nat.
Proof.
  intros Hd H. unfold inputDigit.
  destruct (currentInput s =? "ERROR"); [exact H |].
  assert (G : forall t, (points (currentInput t) <= 1)%nat ->
    (points (currentInput
       (if (d =? ".")%string then
          if Str.includes (currentInput t) "." then t
          else setInput t (currentInput t ++ ".")
        else if (currentInput t =? "0")%string then setInput t d
        else if (MAX_DIGITS <=?
                 String.length (Str.remove_first (currentInput t) "."))%nat
        then t
        else setInput t (currentInput t ++ d))) <= 1)%nat).
  { intros t Ht. destruct (String.eqb_spec d ".") as [-> | Hnp].
    - destruct (Str.includes (currentInput t) ".") eqn:Hi; [exact Ht |].
      cbn [currentInput setInput]. rewrite points_app.
      rewrite (points_not_included _ Hi). simpl. lia.
    - destruct Hd as [Hd | Hd]; [| contradiction].
      destruct (currentInput t =? "0").
      + cbn [currentInput setInput]. lia.
      + destruct (MAX_DIGITS <=? _)%nat; [exact Ht |].
        cbn [currentInput setInput]. rewrite points_app. lia. }
  destruct (lastPressedEquals s); cbv zeta; apply G; [simpl; lia | exact H].
Qed.

Lemma one_point_apply (c : Command) (s : State) :
  (points (currentInput s) <= 1)%nat ->
  (points (currentInput (apply c s)) <= 1)%nat.
Proof.
  intros H. destruct c; cbn [apply].
  - apply one_point_inputDigit; [left; apply points_keyText | exact H].
  - apply one_point_inputDigit; [right; reflexivity | exact H].
  - unfold pressOperator.
    destruct (currentInput s =? "ERROR"); [exact H |]. cbv zeta.
    split_ifs; try rewrite updateDisplay_toError; simpl; lia.
  - unfold pressEquals.
    destruct (currentInput s =? "ERROR"); [exact H |].
    destruct (pendingOp s); [| exact H]. cbv zeta.
    destruct (compute _ _ _) as [r |];
      [destruct (negb (JS.isFinite r)) |];
      try rewrite updateDisplay_toError;
      cbn [currentInput toError]; try (simpl; lia).
    apply points_ToString.
  - simpl. lia.
  - unfold toggleNegate. split_ifs; try exact H.
    cbn [currentInput setInput].
    pose proof (points_slice1 (currentInput s)). lia.
  - unfold percent.
    destruct (currentInput s =? "ERROR"); [exact H |]. cbv zeta.
    destruct (negb _); cbn [currentInput setInput];
      [simpl; lia | apply points_ToString].
  - unfold backspace, clearAll. split_ifs; cbn [currentInput setInput];
      try (simpl; lia).
    pose proof (points_slice_init (currentInput s)). lia.
Qed.

(** X4: in every reachable state [currentInput] holds at most one decimal
    point: the point key adds one only to a text without any, and the
    texts [percent] and [equals] store are written by [String]. *)
Theorem at_most_one_point (s : State) :
  reachable s -> (points (currentInput s) <= 1)%nat.
Proof.
  induction 1 as [| c s _ IH].
  - simpl. lia.
  - unfold exec, handle. apply one_point_updateDisplay, one_point_apply, IH.
Qed.

Lemma at_most_one_point_witness :
  let s := run [CDigit K1; CDecimalPoint; CDecimalPoint; CDigit K5;
                CDecimalPoint; CPercent; CDecimalPoint] initial in
  currentInput s = "0.015" /\ (points (currentInput s) <= 1)%nat.
Proof.
  intros s. split; [vm_compute; reflexivity |].
  apply (at_most_one_point s). apply reachable_from_initial.
Defined.

(** ** After an equals *)

Lemma settled_updateDisplay (s : State) :
  settled s -> settled (fst (updateDisplay s)).
Proof.
  intros H. destruct (updateDisplay_fields s) as (Ha & Hp & Hl).
  unfold settled. rewrite Ha, Hp, Hl. exact H.
Qed.

Lemma settled_unflagged (s : State) :
  lastPressedEquals s = false -> settled s.
Proof. intros H E. congruence. Qed.

Lemma settled_apply (c : Command) (s : State) :
  paired s -> settled s -> settled (apply c s).
Proof.
  intros Hp H. destruct c; cbn [apply].
  - unfold inputDigit. destruct (currentInput s =? "ERROR"); [exact H |].
    destruct (lastPressedEquals s) eqn:Hl; cbv zeta; split_ifs;
      apply settled_unflagged; simpl; try reflexivity; exact Hl.
  - unfold inputDigit. destruct (currentInput s =? "ERROR"); [exact H |].
    destruct (lastPressedEquals s) eqn:Hl; cbv zeta; split_ifs;
      apply settled_unflagged; simpl; try reflexivity; exact Hl.
  - unfold pressOperator. destruct (currentInput s =? "ERROR"); [exact H |].
    cbv zeta. split_ifs; try rewrite updateDisplay_toError;
      unfold settled; cbn;
      first [intros E; discriminate E | intros _; split; reflexivity].
  - unfold pressEquals. destruct (currentInput s =? "ERROR"); [exact H |].
    destruct (pendingOp s) as [op |] eqn:Hq.
    + cbv zeta. split_ifs; try rewrite updateDisplay_toError;
        intros _; split; reflexivity.
    + destruct Hp as [(Ha & _) | (a & sym & _ & Hq')]; [| congruence].
      intros _. split; [exact Ha | reflexivity].
  - intros _. split; reflexivity.
  - unfold toggleNegate. split_ifs; exact H.
  - unfold percent. split_ifs; cbv zeta; split_ifs; exact H.
  - unfold backspace, clearAll.
    destruct (lastPressedEquals s) eqn:Hl; [intros _; split; reflexivity |].
    split_ifs; apply settled_unflagged; exact Hl.
Qed.

Lemma settled_reachable (s : State) : reachable s -> settled s.
Proof.
  induction 1 as [| c s Hr IH].
  - intros E. discriminate.
  - unfold exec, handle. apply settled_updateDisplay, settled_apply;
      [apply paired_reachable, Hr | exact IH].
Qed.

(** X5: in every reachable state with [lastPressedEquals] set,
    [accumulator] and [pendingOp] are [null]; so an operator press that
    finds a number in the accumulator always folds, and the branch of
    [pressOperator] that keeps the accumulator without folding is never
    taken. *)
Theorem nothing_pending_after_equals (s : State) :
  reachable s ->
  (lastPressedEquals s = true ->
     accumulator s = None /\ pendingOp s = None) /\
  (forall a, accumulator s = Some a ->
     negb (lastPressedEquals s) || truthy (pendingOp s) = true).
Proof.
  intros Hr. pose proof (settled_reachable s Hr) as H.
  split; [exact H |].
  intros a Ha. destruct (lastPressedEquals s) eqn:Hl; [| reflexivity].
  destruct (H Hl) as (Hn & _). congruence.
Qed.

Lemma nothing_pending_after_equals_witness :
  let s := run [CDigit K2; COperator Times; CDigit K3; CEquals; CPercent]
             initial in
  lastPressedEquals s = true /\ accumulator s = None /\ pendingOp s = None.
Proof.
  intros s.
  destruct (nothing_pending_after_equals s (reachable_from_initial _))
    as (H & _).
  split; [vm_compute; reflexivity |].
  apply H. vm_compute. reflexivity.
Defined.

(** ** Operators in a row *)

(** X7: an operator key pressed right after the divide key ends in the
    error state.  The divide key leaves [0] on the entry, so the second
    press folds a division by zero whenever the accumulator is finite. *)
Theorem operator_after_divide_is_an_error (s : State) (sym : OpSymbol)
    (a : JS.number) :
  currentInput (exec (COperator Divide) s) <> "ERROR" ->
  accumulator (exec (COperator Divide) s) = Some a ->
  JS.isFinite a = true ->
  (exec (COperator Divide) s = mkState "0" (Some a) (Some "/") false) /\
  exec (COperator sym) (exec (COperator Divide) s)
    = mkState "ERROR" None None false.
Proof.
  intros Hne Ha Hf.
  assert (E : exec (COperator Divide) s = mkState "0" (Some a) (Some "/") false).
  { revert Hne Ha. unfold exec, handle. cbn [apply]. unfold pressOperator.
    destruct (currentInput s =? "ERROR") eqn:Es.
    - intros Hne. exfalso. apply Hne.
      apply String.eqb_eq in Es.
      rewrite (updateDisplay_error s Es). exact Es.
    - cbv zeta. split_ifs; try rewrite updateDisplay_toError;
        cbn; intros Hne Ha; try congruence. }
  split; [exact E |]. rewrite E.
  unfold exec, handle. cbn [apply]. unfold pressOperator.
  cbn [currentInput accumulator pendingOp lastPressedEquals].
  change ("0" =? "ERROR") with false. cbv iota zeta.
  cbn [negb orb truthy orElse].
  change ("/" =? "") with false. cbv iota.
  unfold compute. rewrite Hf.
  change (JS.Number "0") with (S754_zero false). reflexivity.
Qed.

Lemma operator_after_divide_is_an_error_witness :
  run [CDigit K8; COperator Divide; COperator Plus] initial
    = mkState "ERROR" None None false.
Proof.
  pose (s := run [CDigit K8] initial).
  assert (Hne : currentInput (exec (COperator Divide) s) <> "ERROR")
    by (vm_compute; discriminate).
  assert (Ha : accumulator (exec (COperator Divide) s) = Some (JS.of_Z 8))
    by (vm_compute; reflexivity).
  assert (Hf : JS.isFinite (JS.of_Z 8) = true) by (vm_compute; reflexivity).
  destruct (operator_after_divide_is_an_error s Plus (JS.of_Z 8) Hne Ha Hf)
    as (_ & H).
  exact H.
Defined.

(** ** Redrawing *)

(** X9: a reachable state is one [updateDisplay] leaves as it is; so the
    redraw in the [change] handler of the theme select never alters the
    calculation, whatever theme is chosen. *)
Theorem redraw_keeps_reachable_state (s : State) (p : Page) (value : string) :
  reachable s ->
  fst (updateDisplay s) = s /\
  snd (onThemeChange value (p, s)) = s.
Proof.
  intros Hr.
  assert (E : fst (updateDisplay s) = s).
  { destruct Hr as [| c s Hr].
    - reflexivity.
    - unfold exec, handle. rewrite updateDisplay_idem. reflexivity. }
  split; [exact E | exact E].
Qed.

Lemma redraw_keeps_reachable_state_witness :
  let s := run keys_percent_long initial in
  reachable s /\
  snd (onThemeChange "glass"
         (mkPage (fun _ => None) None false "" "" "" "" "" None None, s)) = s.
Proof.
  intros s.
  assert (Hr : reachable s) by apply reachable_from_initial.
  split; [exact Hr |].
  apply (redraw_keeps_reachable_state s _ "glass" Hr).
Defined.

(** X8: the error state lasts through any run of commands without [clear]
    and [backspace]: the four variables stay as they are and the display
    keeps showing [Error]. *)
Theorem error_persists (cs : list Command) (s : State) :
  currentInput s = "ERROR" ->
  Forall (fun c => c <> CClear /\ c <> CBackspace) cs ->
  run cs s = s /\ shown cs s = "Error".
Proof.
  intros E Hcs.
  assert (R : run cs s = s).
  { induction Hcs as [| c cs (Hc & Hb) _ IH]; [reflexivity |].
    change (run (c :: cs) s) with (run cs (exec c s)).
    unfold exec. rewrite (error_latched c s E Hc Hb). exact IH. }
  split; [exact R |].
  unfold shown. rewrite R, (updateDisplay_error s E). reflexivity.
Qed.

Lemma error_persists_witness :
  run [CDigit K7; CDecimalPoint; COperator Plus; CNegate; CPercent; CEquals]
    (run keys_divide_by_zero initial)
    = mkState "ERROR" None None false /\
  shown [CDigit K7; CDecimalPoint; COperator Plus; CNegate; CPercent; CEquals]
    (run keys_divide_by_zero initial) = "Error".
Proof.
  assert (E : currentInput (run keys_divide_by_zero initial) = "ERROR")
    by (vm_compute; reflexivity).
  assert (F : Forall (fun c => c <> CClear /\ c <> CBackspace)
                [CDigit K7; CDecimalPoint; COperator Plus; CNegate; CPercent;
                 CEquals])
    by (repeat (constructor; [split; discriminate |]); constructor).
  destruct (error_persists _ _ E F) as (R & S).
  split; [rewrite R; vm_compute; reflexivity | exact S].
Defined.

(** ** Theme and background *)

Lemma setItem_same (st : string -> option string) (key value : string) :
  setItem st key value key = Some value.
Proof. unfold setItem. rewrite String.eqb_refl. reflexivity. Qed.

Lemma setItem_other (st : string -> option string) (key value k : string) :
  k <> key -> setItem st key value k = st k.
Proof.
  intros H. unfold setItem.
  destruct (String.eqb_spec k key); [contradiction | reflexivity].
Qed.

Lemma orText_not_empty (x : option string) (fallback : string) :
  fallback <> "" -> orText x fallback <> "".
Proof.
  intros H. unfold orText. destruct x as [t |]; [| exact H].
  destruct (String.eqb_spec t ""); assumption.
Qed.

Lemma themed_setTheme (name : string) (p : Page) : themed (setTheme name p).
Proof.
  exists name. cbn [localStorage dataTheme transparentButtons backgroundImage bgSelect themeSelect setTheme setStorage assign]. rewrite setItem_same.
  repeat split. destruct (name =? "glass"); reflexivity.
Qed.

(** X10: a theme that was set comes back on the next load.  On any
    document opened on the [localStorage] that [setTheme(name)] left, with
    a name other than the empty text, [applySavedSettings] sets the
    [data-theme] attribute to that name and the glass class exactly for the
    name [glass], whatever attribute and class the document had, and
    leaves every key of [localStorage] as it found it. *)
Theorem theme_survives_reload (name : string) (p dom : Page) :
  name <> "" ->
  let q :=
    applySavedSettings (setStorage dom (localStorage (setTheme name p))) in
  dataTheme q = Some name /\
  transparentButtons q = (name =? "glass") /\
  localStorage q THEME_KEY = Some name /\
  (forall k, localStorage q k = localStorage (setTheme name p) k).
Proof.
  intros Hne q. subst q.
  assert (S : orText
                (localStorage
                   (setStorage dom (localStorage (setTheme name p)))
                   THEME_KEY) "dark" = name).
  { cbn [localStorage setStorage setTheme]. rewrite setItem_same.
    unfold orText.
    destruct (String.eqb_spec name ""); [contradiction | reflexivity]. }
  unfold applySavedSettings. rewrite S.
  cbn [localStorage dataTheme transparentButtons setTheme setStorage].
  split; [reflexivity |].
  split; [destruct (name =? "glass"); reflexivity |].
  split; [apply setItem_same |].
  intros k. unfold setItem. destruct (k =? THEME_KEY); reflexivity.
Qed.

Lemma theme_survives_reload_witness :
  let p := mkPage (fun _ => None) None false "" "" "" "" "" None None in
  let dom := mkPage (fun _ => None) (Some "light") false "" "" "" "" ""
               (Some (mkSelect ["dark"; "light"; "glass"] "dark")) None in
  dataTheme
    (applySavedSettings (setStorage dom (localStorage (setTheme "glass" p))))
    = Some "glass" /\
  transparentButtons
    (applySavedSettings (setStorage dom (localStorage (setTheme "glass" p))))
    = true.
Proof.
  intros p dom.
  destruct (theme_survives_reload "glass" p dom) as (H1 & H2 & _);
    [discriminate |].
  split; [exact H1 | exact H2].
Defined.

(** X11: without a stored theme, or with the empty text stored,
    [applySavedSettings] falls back to [dark] and stores it. *)
Theorem theme_defaults_to_dark (p : Page) :
  localStorage p THEME_KEY = None \/ localStorage p THEME_KEY = Some "" ->
  dataTheme (applySavedSettings p) = Some "dark" /\
  transparentButtons (applySavedSettings p) = false /\
  localStorage (applySavedSettings p) THEME_KEY = Some "dark".
Proof.
  intros H. unfold applySavedSettings.
  assert (S : orText (localStorage p THEME_KEY) "dark" = "dark")
    by (destruct H as [-> | ->]; reflexivity).
  rewrite S. cbn [localStorage dataTheme transparentButtons backgroundImage bgSelect themeSelect setTheme setStorage assign]. repeat split.
Qed.

Lemma theme_defaults_to_dark_witness :
  dataTheme (applySavedSettings
    (mkPage (fun _ => None) None true "" "" "" "" "" None None))
    = Some "dark".
Proof.
  apply (theme_defaults_to_dark
    (mkPage (fun _ => None) None true "" "" "" "" "" None None)).
  left. reflexivity.
Defined.

Lemma styleImage_accepted (accepts : string -> bool) (old img : string) :
  accepts ("url('" ++ img ++ "')") = true ->
  styleImage accepts old ("url('" ++ img ++ "')") = "url('" ++ img ++ "')".
Proof.
  intros H. unfold styleImage. rewrite H. reflexivity.
Qed.

(** X12: a background that was chosen comes back on the next load, and the
    empty choice does not.  Let [v] be the choice [img], or the default
    when [img] is the empty text, and let the host accept [url('v')] as an
    image unless [v] is [none].  On any document opened on the
    [localStorage] that [setBackground(img)] left, [loadBackground] shows
    the image of [v] (none for [none]), whatever image the document had,
    stores [v], and leaves the other keys, the theme attribute and the
    glass class alone. *)
Theorem background_survives_reload (accepts : string -> bool) (img : string)
    (p dom : Page) :
  orText (Some img) defaultBg = "none" \/
  accepts ("url('" ++ orText (Some img) defaultBg ++ "')") = true ->
  let q :=
    loadBackground accepts
      (setStorage dom (localStorage (setBackground accepts img p))) in
  backgroundImage q = imageOf (orText (Some img) defaultBg) /\
  localStorage q BG_KEY = Some (orText (Some img) defaultBg) /\
  (forall k, k <> BG_KEY -> localStorage q k = localStorage p k) /\
  dataTheme q = dataTheme dom /\
  transparentButtons q = transparentButtons dom.
Proof.
  intros H q. subst q.
  assert (L : localStorage (setBackground accepts img p)
              = setItem (localStorage p) BG_KEY img).
  { unfold setBackground. destruct ((img =? "") || (img =? "none"));
      reflexivity. }
  rewrite L. unfold loadBackground.
  cbn [localStorage setStorage]. rewrite setItem_same.
  assert (G : forall v st,
            v <> "" ->
            (v = "none" \/ accepts ("url('" ++ v ++ "')") = true) ->
            (forall k, k <> BG_KEY -> st k = localStorage p k) ->
            let q := setBackground accepts v (setStorage dom st) in
            backgroundImage q = imageOf v /\
            localStorage q BG_KEY = Some v /\
            (forall k, k <> BG_KEY -> localStorage q k = localStorage p k) /\
            dataTheme q = dataTheme dom /\
            transparentButtons q = transparentButtons dom).
  { intros v st Hv Ha Hst q. subst q. unfold setBackground, imageOf.
    destruct (String.eqb_spec v "") as [? | _]; [contradiction |].
    cbn [orb].
    destruct (String.eqb_spec v "none") as [-> | Hn];
      cbn [localStorage dataTheme transparentButtons backgroundImage
           setStorage].
    - rewrite setItem_same. repeat split.
      intros k Hk. rewrite setItem_other by exact Hk. apply Hst, Hk.
    - destruct Ha as [Ha | Ha]; [contradiction |].
      rewrite (styleImage_accepted accepts _ v Ha), setItem_same.
      repeat split.
      intros k Hk. rewrite setItem_other by exact Hk. apply Hst, Hk. }
  unfold orText in *.
  destruct (String.eqb_spec img "") as [-> | Hne].
  - cbn [localStorage dataTheme transparentButtons backgroundImage].
    apply (G defaultBg); [discriminate | exact H |].
    intros k Hk. cbn [localStorage setStorage].
    rewrite !setItem_other by exact Hk. reflexivity.
  - cbn [localStorage dataTheme transparentButtons backgroundImage].
    apply (G img); [exact Hne | exact H |].
    intros k Hk. apply setItem_other, Hk.
Qed.

(** X13: once the script has loaded, whatever is then done to the page by
    [setTheme], [applySavedSettings], [setBackground] and
    [loadBackground], and whatever images the host accepts, the stored
    theme, the [data-theme] attribute and the glass class agree. *)
Theorem theme_stays_consistent (accepts : string -> bool)
    (os : list PageOp) (p : Page) :
  themed (pageRun accepts os (pageLoaded accepts p)).
Proof.
  assert (Hbg : forall img q, themed q -> themed (setBackground accepts img q)).
  { intros img q (n & H1 & H2 & H3). exists n. unfold setBackground.
    destruct ((img =? "") || (img =? "none"));
      cbn [localStorage dataTheme transparentButtons];
      (repeat split; [exact H1 | | exact H3]);
      rewrite setItem_other by discriminate; exact H2. }
  assert (Hld : forall q, themed q -> themed (loadBackground accepts q)).
  { intros q T. unfold loadBackground.
    assert (T' : themed (setStorage q
                   (setItem (localStorage q) BG_KEY defaultBg))).
    { destruct T as (n & H1 & H2 & H3). exists n.
      cbn [localStorage dataTheme transparentButtons setStorage].
      rewrite setItem_other by discriminate. repeat split; assumption. }
    destruct (localStorage q BG_KEY) as [t |];
      [destruct (t =? "") |];
      first [ exact (Hbg defaultBg _ T') | exact (Hbg t _ T) ]. }
  assert (Hstep : forall o q, themed q -> themed (pageStep accepts o q)).
  { intros o q T. destruct o; cbn [pageStep].
    - apply themed_setTheme.
    - unfold applySavedSettings.
      apply (themed_setTheme (orText (localStorage q THEME_KEY) "dark") q).
    - apply Hbg, T.
    - apply Hld, T. }
  assert (G0 : themed (pageLoaded accepts p)).
  { unfold pageLoaded. apply Hld.
    unfold applySavedSettings.
    apply (themed_setTheme (orText (localStorage p THEME_KEY) "dark") p). }
  revert G0. generalize (pageLoaded accepts p).
  induction os as [| o os IH]; intros q G; [exact G |].
  apply IH, Hstep, G.
Qed.

(** ** The earlier glass toggle *)

(** X14: in the earlier revision the glass mode comes back on the next
    load.  [toggleTransparentButtons], with an argument or without, leaves
    the class list in the state it returns and that state as text under
    the glass key; and on any document opened on the [localStorage] it
    left, [applySavedSettings] puts the class list and the glass button in
    that state, whatever class and button state the document had. *)
Theorem glass_survives_reload (enable : option bool) (p dom : Earlier.Page) :
  let q := fst (Earlier.toggleTransparentButtons enable p) in
  let on := snd (Earlier.toggleTransparentButtons enable p) in
  let r :=
    Earlier.applySavedSettings
      (Earlier.setStorage dom (Earlier.localStorage q)) in
  Earlier.transparentButtons q = on /\
  Earlier.localStorage q Earlier.GLASS_KEY = Some (Earlier.boolText on) /\
  Earlier.transparentButtons r = on /\
  Earlier.glassToggleBtn r
    = Earlier.showGlass (Earlier.glassToggleBtn dom) on /\
  Earlier.localStorage r Earlier.GLASS_KEY = Some (Earlier.boolText on).
Proof.
  cbv zeta. unfold Earlier.toggleTransparentButtons. cbn [fst snd].
  set (on := match enable with
             | Some e => e
             | None => negb (Earlier.transparentButtons p)
             end).
  cbn [Earlier.transparentButtons Earlier.localStorage].
  split; [reflexivity |]. split; [apply setItem_same |].
  unfold Earlier.applySavedSettings.
  cbn [Earlier.localStorage Earlier.setTheme Earlier.glassToggleBtn
       Earlier.transparentButtons Earlier.themeSelect Earlier.setStorage].
  rewrite (setItem_other _ THEME_KEY _ Earlier.GLASS_KEY) by discriminate.
  rewrite setItem_same.
  assert (B : (Earlier.boolText on =? "true") = on) by (destruct on; reflexivity).
  rewrite B.
  split; [destruct on; reflexivity |].
  split; reflexivity.
Qed.

(** X15: two clicks on the glass button restore the class list, and the
    key then holds the state the page had before the first click. *)
Theorem glass_click_twice (p : Earlier.Page) :
  Earlier.transparentButtons (Earlier.onGlassClick (Earlier.onGlassClick p))
    = Earlier.transparentButtons p /\
  Earlier.localStorage (Earlier.onGlassClick (Earlier.onGlassClick p))
    Earlier.GLASS_KEY
    = Some (Earlier.boolText (Earlier.transparentButtons p)) /\
  (forall k, k <> Earlier.GLASS_KEY ->
     Earlier.localStorage (Earlier.onGlassClick (Earlier.onGlassClick p)) k
       = Earlier.localStorage p k) /\
  Earlier.dataTheme (Earlier.onGlassClick (Earlier.onGlassClick p))
    = Earlier.dataTheme p.
Proof.
  unfold Earlier.onGlassClick, Earlier.toggleTransparentButtons.
  cbn [fst Earlier.transparentButtons Earlier.localStorage Earlier.dataTheme].
  rewrite Bool.negb_involutive.
  split; [reflexivity |]. split; [apply setItem_same |].
  split; [| reflexivity].
  intros k Hk. rewrite !setItem_other by exact Hk. reflexivity.
Qed.

(** X16: where the two revisions differ.  In the earlier one a change of
    theme never takes the glass class away: choosing [glass] adds it and
    any other theme leaves the class list alone.  In the current one
    [setTheme] makes the class follow the theme, whatever the page had. *)
Theorem glass_follows_theme_only_now (value : string) (q : Earlier.Page)
    (p : Page) :
  value <> "glass" ->
  Earlier.transparentButtons (Earlier.onThemeChange value q)
    = Earlier.transparentButtons q /\
  Earlier.transparentButtons
    (Earlier.onThemeChange value (Earlier.onThemeChange "glass" q)) = true /\
  transparentButtons (setTheme value (setTheme "glass" p)) = false /\
  transparentButtons (setTheme "glass" p) = true.
Proof.
  intros Hv. apply String.eqb_neq in Hv.
  unfold Earlier.onThemeChange. rewrite Hv.
  change ("glass" =? "glass") with true. cbv iota.
  unfold Earlier.toggleTransparentButtons, Earlier.setTheme, setTheme.
  cbn [fst Earlier.transparentButtons transparentButtons].
  rewrite Hv. repeat split.
Qed.

Lemma glass_follows_theme_only_now_witness :
  Earlier.transparentButtons
    (Earlier.onThemeChange "light"
       (Earlier.onThemeChange "glass"
          (Earlier.mkPage (fun _ => None) None false "" None None None)))
    = true /\
  transparentButtons
    (setTheme "light"
       (setTheme "glass"
          (mkPage (fun _ => None) None false "" "" "" "" "" None None)))
    = false.
Proof.
  destruct (glass_follows_theme_only_now "light"
              (Earlier.mkPage (fun _ => None) None false "" None None None)
              (mkPage (fun _ => None) None false "" "" "" "" "" None None))
    as (_ & H2 & H3 & _); [discriminate |].
  split; assumption.
Defined.

(** X17: in the earlier revision, too, a background that was chosen comes
    back on the next load, or the default for the empty choice.  With [v]
    the choice or the default and a host that accepts [url('v')], on any
    document opened on the [localStorage] that [setBackground(img)] left,
    [loadBackground] shows [url('v')], whatever image the document had,
    and stores [v]; that revision knows no choice [none]. *)
Theorem earlier_background_survives_reload (accepts : string -> bool)
    (img : string) (p dom : Earlier.Page) :
  accepts ("url('" ++ orText (Some img) Earlier.defaultBg ++ "')") = true ->
  let q :=
    Earlier.loadBackground accepts
      (Earlier.setStorage dom
         (Earlier.localStorage (Earlier.setBackground accepts img p))) in
  Earlier.backgroundImage q
    = "url('" ++ orText (Some img) Earlier.defaultBg ++ "')" /\
  Earlier.localStorage q BG_KEY = Some (orText (Some img) Earlier.defaultBg) /\
  (forall k, k <> BG_KEY ->
     Earlier.localStorage q k = Earlier.localStorage p k).
Proof.
  intros H q. subst q.
  unfold Earlier.loadBackground, Earlier.setBackground.
  cbn [Earlier.localStorage Earlier.backgroundImage Earlier.setStorage].
  rewrite setItem_same.
  rewrite (styleImage_accepted accepts _ _ H).
  split; [reflexivity |]. split; [apply setItem_same |].
  intros k Hk. rewrite !setItem_other by exact Hk. reflexivity.
Qed.

(** ** When [compute] gives [null] *)

(** X18: [compute] returns [null] for the operator [/] on a finite
    dividend and a zero divisor, and in no other case. *)
Theorem compute_null_iff (a b : JS.number) (op : string) :
  compute a b op = None <->
  op = "/" /\ JS.isFinite a = true /\ JS.isZero b = true.
Proof.
  unfold compute. split.
  - destruct (JS.isFinite a); [| discriminate].
    destruct (JS.isFinite b); [| discriminate]. cbn [negb orb].
    destruct (String.eqb_spec op "+"); [discriminate |].
    destruct (String.eqb_spec op "-"); [discriminate |].
    destruct (String.eqb_spec op "*"); [discriminate |].
    destruct (String.eqb_spec op "/"); [| discriminate].
    destruct (JS.isZero b); [auto | discriminate].
  - intros (-> & Ha & Hb). rewrite Ha.
    destruct b; try discriminate. reflexivity.
Qed.

(** ** Chains fold from the left *)

(** An operator key on an entry of typed digits with an operator waiting:
    the waiting operator is applied and the new one waits. *)
Lemma exec_operator_folds (sym sym' : OpSymbol) (ks : list DigitKey)
    (a a' : JS.number) :
  compute a (JS.Number (typed ks)) (opMap sym) = Some a' ->
  exec (COperator sym') (mkState (typed ks) (Some a) (Some (opMap sym)) false)
    = mkState "0" (Some a') (Some (opMap sym')) false.
Proof.
  intros Hc. unfold exec, handle. cbn [apply]. unfold pressOperator.
  cbn [currentInput accumulator pendingOp lastPressedEquals].
  destruct (typed_plain ks) as (Hne & _).
  destruct (String.eqb_spec (typed ks) "ERROR"); [contradiction |].
  cbv zeta. cbn [negb orb].
  assert (O : orElse (Some (opMap sym)) (opMap sym') = opMap sym)
    by (destruct sym; reflexivity).
  rewrite O, Hc. reflexivity.
Qed.

Lemma run_chain (rest : list (OpSymbol * list DigitKey)) :
  forall a sym ks a' sym' ks',
  chainFold a sym ks rest = Some (a', sym', ks') ->
  run (chainKeys rest)
    (mkState (typed ks) (Some a) (Some (opMap sym)) false)
  = mkState (typed ks') (Some a') (Some (opMap sym')) false.
Proof.
  induction rest as [| [sym1 ks1] rest IH]; intros a sym ks a' sym' ks' H.
  - simpl in H. injection H as <- <- <-. reflexivity.
  - cbn [chainFold] in H.
    destruct (compute a (JS.Number (typed ks)) (opMap sym)) as [a1 |] eqn:Hc;
      [| discriminate].
    unfold chainKeys. cbn [flat_map fst snd].
    fold (chainKeys rest).
    change (run ((COperator sym1 :: map CDigit ks1) ++ chainKeys rest)
              (mkState (typed ks) (Some a) (Some (opMap sym)) false))
      with (run (map CDigit ks1 ++ chainKeys rest)
              (exec (COperator sym1)
                 (mkState (typed ks) (Some a) (Some (opMap sym)) false))).
    rewrite (exec_operator_folds sym sym1 ks a a1 Hc).
    rewrite run_app.
    rewrite (run_digits_on_zero ks1
               (mkState "0" (Some a1) (Some (opMap sym1)) false)
               eq_refl eq_refl).
    apply IH. exact H.
Qed.

(** X6: a chain is evaluated from the left, one operator at a time.
    Outside the error state and with nothing in the accumulator, the keys
    of a chain (an operator and the digits of an operand, any number of
    times) leave the accumulator at the left fold of [compute] over all
    operands but the last, with the last operator waiting and the last
    operand on the entry; equals then applies that operator, and a finite
    result is rounded by [roundForDisplay], written by [String] and
    stored. *)
Theorem chain_folds_left (s : State) (sym : OpSymbol) (ks : list DigitKey)
    (rest : list (OpSymbol * list DigitKey))
    (a : JS.number) (sym' : OpSymbol) (ks' : list DigitKey) (r : JS.number) :
  currentInput s <> "ERROR" ->
  accumulator s = None ->
  chainFold (JS.Number (currentInput s)) sym ks rest = Some (a, sym', ks') ->
  compute a (JS.Number (typed ks')) (opMap sym') = Some r ->
  JS.isFinite r = true ->
  run (chainKeys ((sym, ks) :: rest)) s
    = mkState (typed ks') (Some a) (Some (opMap sym')) false /\
  handle CEquals (run (chainKeys ((sym, ks) :: rest)) s)
    = updateDisplay (mkState (JS.ToString (roundForDisplay r)) None None true).
Proof.
  intros Hne Ha Hfold Hc Hf.
  assert (R : run (chainKeys ((sym, ks) :: rest)) s
              = mkState (typed ks') (Some a) (Some (opMap sym')) false).
  { unfold chainKeys. cbn [flat_map fst snd]. fold (chainKeys rest).
    change (run ((COperator sym :: map CDigit ks) ++ chainKeys rest) s)
      with (run (map CDigit ks ++ chainKeys rest) (exec (COperator sym) s)).
    assert (E : exec (COperator sym) s
                = mkState "0" (Some (JS.Number (currentInput s)))
                    (Some (opMap sym)) false).
    { unfold exec, handle. cbn [apply]. unfold pressOperator.
      destruct (String.eqb_spec (currentInput s) "ERROR"); [contradiction |].
      cbv zeta. rewrite Ha. reflexivity. }
    rewrite E, run_app.
    rewrite (run_digits_on_zero ks
               (mkState "0" (Some (JS.Number (currentInput s)))
                  (Some (opMap sym)) false) eq_refl eq_refl).
    apply run_chain. exact Hfold. }
  split; [exact R |].
  rewrite R. unfold handle. cbn [apply]. f_equal.
  destruct (typed_plain ks') as (Ht & _).
  apply (pressEquals_success _ (opMap sym') r);
    [exact Ht | reflexivity | exact Hc | exact Hf].
Qed.

Lemma chain_folds_left_witness :
  let s := run [CDigit K5] initial in
  run (chainKeys [(Plus, [K3]); (Times, [K2]); (Minus, [K1; K0])]) s
    = mkState "10" (Some (JS.of_Z 16)) (Some "-") false /\
  handle CEquals
    (run (chainKeys [(Plus, [K3]); (Times, [K2]); (Minus, [K1; K0])]) s)
    = (mkState "6" None None true, "6").
Proof.
  intros s.
  destruct (chain_folds_left s Plus [K3] [(Times, [K2]); (Minus, [K1; K0])]
              (JS.of_Z 16) Minus [K1; K0] (JS.of_Z 6)) as (R & E);
    try (vm_compute; reflexivity).
  - vm_compute. discriminate.
  - split; [exact R |]. rewrite E. vm_compute. reflexivity.
Defined.

(** ** The statements above at concrete pages and numbers *)

Lemma background_survives_reload_witness :
  let p := mkPage (fun _ => None) None false "" "" "" "" "" None None in
  let dom := mkPage (fun _ => None) (Some "dark") false "url('old.png')"
               "" "" "" "" None None in
  backgroundImage
    (loadBackground acceptsPlain
       (setStorage dom
          (localStorage (setBackground acceptsPlain "background/3.jpg" p))))
    = "url('background/3.jpg')" /\
  backgroundImage
    (loadBackground acceptsPlain
       (setStorage dom (localStorage (setBackground acceptsPlain "none" p))))
    = "" /\
  backgroundImage
    (loadBackground acceptsPlain
       (setStorage dom (localStorage (setBackground acceptsPlain "" p))))
    = "url('background/1.jpg')".
Proof.
  intros p dom.
  destruct (background_survives_reload acceptsPlain "background/3.jpg" p dom)
    as (H1 & _); [right; reflexivity |].
  destruct (background_survives_reload acceptsPlain "none" p dom)
    as (H2 & _); [left; reflexivity |].
  destruct (background_survives_reload acceptsPlain "" p dom)
    as (H3 & _); [right; reflexivity |].
  split; [exact H1 |]. split; [exact H2 | exact H3].
Defined.

Lemma glass_click_twice_witness :
  let p := Earlier.mkPage (fun _ => None) (Some "dark") true "" None None
             None in
  Earlier.transparentButtons (Earlier.onGlassClick (Earlier.onGlassClick p))
    = true /\
  Earlier.localStorage (Earlier.onGlassClick (Earlier.onGlassClick p))
    THEME_KEY = None.
Proof.
  intros p.
  destruct (glass_click_twice p) as (H1 & _ & H3 & _).
  split; [exact H1 |].
  rewrite H3; [reflexivity | discriminate].
Defined.

Lemma earlier_background_survives_reload_witness :
  let p := Earlier.mkPage (fun _ => None) None false "" None None None in
  let dom := Earlier.mkPage (fun _ => None) None false "url('old.png')"
               None None None in
  Earlier.backgroundImage
    (Earlier.loadBackground acceptsPlain
       (Earlier.setStorage dom
          (Earlier.localStorage (Earlier.setBackground acceptsPlain "" p))))
    = "url('bg1.jpg')" /\
  Earlier.localStorage
    (Earlier.loadBackground acceptsPlain
       (Earlier.setStorage dom
          (Earlier.localStorage (Earlier.setBackground acceptsPlain "" p))))
    THEME_KEY = None.
Proof.
  intros p dom.
  destruct (earlier_background_survives_reload acceptsPlain "" p dom)
    as (H1 & _ & H3); [reflexivity |].
  split; [exact H1 |].
  rewrite H3; [reflexivity | discriminate].
Defined.

Lemma compute_null_iff_witness :
  compute (JS.of_Z 5) (S754_zero true) "/" = None /\
  compute (JS.of_Z 5) JS.zero "*" <> None.
Proof.
  split.
  - apply (compute_null_iff (JS.of_Z 5) (S754_zero true) "/").
    repeat split.
  - intros H. apply (compute_null_iff (JS.of_Z 5) JS.zero "*") in H.
    destruct H as (H & _). discriminate.
Defined.
